(** * JSONSchema-AutoDoc: the default schema generator

    A shallow embedding of [jsonschema_mdit/generator/default.py]
    (class [DefaultGenerator]) and the properties of its badge rules, tab
    rules and of [generate_schema].

    Python values are an inductive type, Python exceptions are the error
    side of a small result monad, the generator object is a record whose
    call-scoped fields are threaded explicitly, and the elements built
    through the [mdit] document library are constructors that record the
    arguments of the call. *)

From Stdlib Require Import String Ascii List ZArith Bool Lia.
From Stdlib Require Import DecimalString.
From Stdlib Require Import Sorting.Sorted Sorting.Permutation.
Import ListNotations.
Local Open Scope string_scope.
Local Open Scope Z_scope.

Set Implicit Arguments.

(* ------------------------------------------------------------------ *)
(** ** Python values *)

(** The values a schema node can hold (JSON data as Python loads it),
    plus [PFunc] for a function object: the code passes a lambda where a
    value is expected ([message(title)]), so function objects can reach
    [len]; it also stands for the other opaque objects of the generator
    (its callables, the registry).  A float is carried by its numerator
    and denominator; only its printed form matters to the generator, and
    that is left to [py_repr]. *)
#[warnings="-register-all"]
Inductive pyval : Type :=
| PNone
| PBool (b : bool)
| PInt (n : Z)
| PFloat (num den : Z)
| PStr (s : string)
| PList (l : list pyval)
| PDict (d : list (string * pyval))
| PFunc.

(** A Python [dict] with string keys, in insertion order. *)
Definition dict := list (string * pyval).

(** The exception classes the generator can raise.  [Unmodelled] is not a
    Python exception: it marks the places where the outcome depends on
    what the embedding does not follow, the comparison of arbitrary
    objects ([sorted] of a list that holds something else than strings,
    [x in list] for a non-string [x]) and the call of an object whose code
    is not a rule of the class. *)
Inductive exn : Type :=
| AttributeError (name : string)
| NameError (name : string)
| TypeError
| ValueError (msg : string)
| KeyError
| IndexError
| Unmodelled.

Inductive result (A : Type) : Type :=
| Return (a : A)
| Raise (e : exn).
Arguments Return {A} a.
Arguments Raise {A} e.

Definition bind {A B} (m : result A) (k : A -> result B) : result B :=
  match m with
  | Return a => k a
  | Raise e => Raise e
  end.

Declare Scope py_scope.
Delimit Scope py_scope with py.
Notation "x <- m ;; k" := (bind m (fun x => k))
  (at level 61, m at next level, right associativity) : py_scope.
Notation "m ;;; k" := (bind m (fun _ => k))
  (at level 61, right associativity) : py_scope.
Local Open Scope py_scope.

Definition returns {A} (m : result A) : Prop := exists a, m = Return a.
Definition raises {A} (m : result A) : Prop := exists e, m = Raise e.

Fixpoint mapM {A B} (f : A -> result B) (l : list A) : result (list B) :=
  match l with
  | [] => Return []
  | x :: xs => y <- f x ;; ys <- mapM f xs ;; Return (y :: ys)
  end.

(* ------------------------------------------------------------------ *)
(** ** Strings *)

Definition str_of_Z (n : Z) : string := NilZero.string_of_int (Z.to_int n).

Definition ascii_lower (c : ascii) : ascii :=
  let n := nat_of_ascii c in
  if (Nat.leb 65 n && Nat.leb n 90)%bool then ascii_of_nat (n + 32) else c.

(** [str.lower] on the ASCII letters. *)
Fixpoint str_lower (s : string) : string :=
  match s with
  | EmptyString => EmptyString
  | String c r => String (ascii_lower c) (str_lower r)
  end.

(** [sep.join(parts)] on strings. *)
Fixpoint str_join (sep : string) (parts : list string) : string :=
  match parts with
  | [] => ""
  | [p] => p
  | p :: rest => p ++ sep ++ str_join sep rest
  end.

(** [sub in s] on strings. *)
Fixpoint str_contains (sub s : string) : bool :=
  (String.prefix sub s ||
   match s with
   | EmptyString => false
   | String _ r => str_contains sub r
   end)%bool.

(** The characters of a string, as one-character strings (iteration over
    a [str]). *)
Fixpoint str_chars (s : string) : list string :=
  match s with
  | EmptyString => []
  | String c r => String c "" :: str_chars r
  end.

(* ------------------------------------------------------------------ *)
(** ** Dictionaries *)

Fixpoint dict_get (k : string) (d : dict) : option pyval :=
  match d with
  | [] => None
  | (k', v) :: r => if String.eqb k k' then Some v else dict_get k r
  end.

(** [k in d] *)
Definition dict_has (k : string) (d : dict) : bool :=
  match dict_get k d with Some _ => true | None => false end.

(** [d.get(k, dflt)] *)
Definition dict_get_or (k : string) (dflt : pyval) (d : dict) : pyval :=
  match dict_get k d with Some v => v | None => dflt end.

(** [d.get(k)] *)
Definition dict_get_none (k : string) (d : dict) : pyval :=
  dict_get_or k PNone d.

(** [d[k]] *)
Definition dict_item (k : string) (d : dict) : result pyval :=
  match dict_get k d with Some v => Return v | None => Raise KeyError end.

(** [d[k] = v]: an existing key keeps its position, a new key goes last. *)
Fixpoint dict_set (k : string) (v : pyval) (d : dict) : dict :=
  match d with
  | [] => [(k, v)]
  | (k', v') :: r =>
      if String.eqb k k' then (k', v) :: r else (k', v') :: dict_set k v r
  end.

(** [a | b]: the entries of [a] updated with those of [b]. *)
Definition dict_or (a b : dict) : dict :=
  fold_left (fun acc kv => dict_set (fst kv) (snd kv) acc) b a.

(* ------------------------------------------------------------------ *)
(** ** Builtins *)

(** Truth value of an object ([bool(v)], as [if v], [not v], [a or b]
    use it). *)
Definition truthy (v : pyval) : bool :=
  match v with
  | PNone => false
  | PBool b => b
  | PInt n => negb (n =? 0)
  | PFloat num _ => negb (num =? 0)
  | PStr s => negb (String.eqb s "")
  | PList l => match l with [] => false | _ => true end
  | PDict d => match d with [] => false | _ => true end
  | PFunc => true
  end.

(** [len(v)] *)
Definition py_len (v : pyval) : result Z :=
  match v with
  | PStr s => Return (Z.of_nat (String.length s))
  | PList l => Return (Z.of_nat (List.length l))
  | PDict d => Return (Z.of_nat (List.length d))
  | _ => Raise TypeError
  end.

(** Iteration over an object ([for x in v], [enumerate(v)], [sorted(v)]). *)
Definition py_iter (v : pyval) : result (list pyval) :=
  match v with
  | PList l => Return l
  | PStr s => Return (map PStr (str_chars s))
  | PDict d => Return (map (fun kv => PStr (fst kv)) d)
  | _ => Raise TypeError
  end.

(** [sep.join(v)] for a list [v]: every element must be a string. *)
Fixpoint all_strs (l : list pyval) : option (list string) :=
  match l with
  | [] => Some []
  | PStr s :: r =>
      match all_strs r with Some ss => Some (s :: ss) | None => None end
  | _ :: _ => None
  end.

Definition py_join (sep : string) (l : list pyval) : result string :=
  match all_strs l with
  | Some ss => Return (str_join sep ss)
  | None => Raise TypeError
  end.

(** Insertion sort on strings by code point order, as [sorted] orders
    strings. *)
Fixpoint insert_str (x : string) (l : list string) : list string :=
  match l with
  | [] => [x]
  | y :: r => if String.leb x y then x :: l else y :: insert_str x r
  end.

Definition sort_strs (l : list string) : list string :=
  fold_right insert_str [] l.

(** [sorted(v)] *)
Definition py_sorted (v : pyval) : result (list pyval) :=
  l <- py_iter v ;;
  match all_strs l with
  | Some ss => Return (map PStr (sort_strs ss))
  | None =>
      match l with
      | [_] => Return l
      | _ => Raise Unmodelled
      end
  end.

(** [sorted(d.items())] for a dict [d]: keys are distinct strings, so the
    order is the order of the keys. *)
Fixpoint insert_item (x : string * pyval) (l : dict) : dict :=
  match l with
  | [] => [x]
  | y :: r => if String.leb (fst x) (fst y) then x :: l else y :: insert_item x r
  end.

Definition sort_items (d : dict) : dict := fold_right insert_item [] d.

(** [item in container] *)
Definition py_in (item container : pyval) : result bool :=
  match container with
  | PDict d =>
      match item with
      | PStr s => Return (dict_has s d)
      | PList _ | PDict _ => Raise TypeError
      | _ => Return false
      end
  | PStr s =>
      match item with
      | PStr sub => Return (str_contains sub s)
      | _ => Raise TypeError
      end
  | PList l =>
      match item with
      | PStr sub =>
          Return (existsb (fun v => match v with
                                    | PStr t => String.eqb sub t
                                    | _ => false
                                    end) l)
      | _ => Raise Unmodelled
      end
  | _ => Raise TypeError
  end.

(* ------------------------------------------------------------------ *)
(** ** Keywords *)

(** Modelled from the spec: the module [jsonschema_mdit.meta] is not part
    of the sources at hand; [Key] holds the JSON Schema keyword names the
    specification lists, each under the name the generator uses for it. *)
Module Key.
Definition DEPRECATED := "deprecated".
Definition READ_ONLY := "readOnly".
Definition WRITE_ONLY := "writeOnly".
Definition TYPE := "type".
Definition FORMAT := "format".
Definition CONTENT_MEDIA_TYPE := "contentMediaType".
Definition CONTENT_ENCODING := "contentEncoding".
Definition MIN_LENGTH := "minLength".
Definition MAX_LENGTH := "maxLength".
Definition MINIMUM := "minimum".
Definition EXCLUSIVE_MINIMUM := "exclusiveMinimum".
Definition MAXIMUM := "maximum".
Definition EXCLUSIVE_MAXIMUM := "exclusiveMaximum".
Definition MULTIPLE_OF := "multipleOf".
Definition MIN_ITEMS := "minItems".
Definition MAX_ITEMS := "maxItems".
Definition MIN_CONTAINS := "minContains".
Definition MAX_CONTAINS := "maxContains".
Definition UNIQUE_ITEMS := "uniqueItems".
Definition UNEVALUATED_ITEMS := "unevaluatedItems".
Definition MIN_PROPERTIES := "minProperties".
Definition MAX_PROPERTIES := "maxProperties".
Definition UNEVALUATED_PROPERTIES := "unevaluatedProperties".
Definition DEFAULT := "default".
Definition REQUIRED := "required".
Definition DEPENDENT_REQUIRED := "dependentRequired".
Definition CONST := "const".
Definition PATTERN := "pattern".
Definition ENUM := "enum".
Definition EXAMPLES := "examples".
Definition CONTENT_SCHEMA := "contentSchema".
Definition PREFIX_ITEMS := "prefixItems".
Definition ITEMS := "items".
Definition CONTAINS := "contains".
Definition PROPERTIES := "properties".
Definition PATTERN_PROPERTIES := "patternProperties".
Definition ADDITIONAL_PROPERTIES := "additionalProperties".
Definition PROPERTY_NAMES := "propertyNames".
Definition DEPENDENT_SCHEMAS := "dependentSchemas".
Definition ALL_OF := "allOf".
Definition ONE_OF := "oneOf".
Definition ANY_OF := "anyOf".
Definition NOT := "not".
Definition IF := "if".
Definition REF := "$ref".
Definition ID := "$id".
Definition DEFS := "$defs".
Definition SUMMARY := "summary".
Definition DESCRIPTION := "description".
End Key.

(* ------------------------------------------------------------------ *)
(** ** Document elements *)

(** What the calls into [mdit] build.  Each constructor keeps the
    arguments of the call it stands for. *)
#[warnings="-register-all"]
Inductive element : Type :=
| EValue (v : pyval)
| EText (s : string)
| EParagraph (content : pyval) (name : string) (classes : list string)
| EBlockContainer (items : list (option string * element))
    (html_container : option string)
    (html_container_attrs : list (string * string))
| ECodeBlock (content language : string)
| EOrderedList (items : list element)
| EUnorderedList (items : list element)
| ETabItem (content : element) (title name : string)
    (classes_container classes_content classes_label : list string)
| ETabSet (content : list (option element)) (classes : list string)
| EBadges (service : string) (items : list dict) (kwargs : dict)
| EAttribute (content : element) (block : bool) (classes : pyval)
| EDropdown (title : string) (body : element).

(** The dict [generate_schema] returns: the keys [badges], [seperator]
    and [tabs] are always set, [summary] and [description] only under
    their guards. *)
Record Body : Type := {
  body_badges : element;
  body_seperator : string;
  body_summary : option element;
  body_tabs : element;
  body_description : option element
}.

(* ------------------------------------------------------------------ *)
(** ** The generator object *)

(** The registry given to the constructor: its truth value and
    [registry[ref_id].contents]. *)
Record Registry : Type := {
  registry_bool : bool;
  registry_contents : pyval -> result pyval
}.

(** The instance attributes [__init__] assigns.  The first seventeen are
    the configuration, the last four are the fields [generate_schema]
    rebinds at each call. *)
Record Generator : Type := {
  _registry : option Registry;
  _key_title_gen : string -> string;
  _value_code_gen : pyval -> pyval;
  _value_code_language : string;
  _ref_tag_gen : pyval -> result pyval;
  _ref_name_gen : pyval -> result pyval;
  _keyword_title_prefix : string;
  _keyword_title_suffix : string;
  _keyword_description_prefix : string;
  _keyword_description_suffix : string;
  _class_prefix : string;
  _badge_permissive : dict;
  _badge_restrictive : dict;
  _ref_tag_prefix : string;
  _badges_header_default : dict;
  _badges_inline_default : dict;
  _badge_default : dict;
  _schema : dict;
  _schema_jsonpath : string;
  _schema_tag_prefix : string;
  _instance_jsonpath : string
}.

(** The instance [__dict__]: the names [__init__] binds and what they
    hold, with [PFunc] for the callables and for the registry object.  An
    instance attribute hides a method of the class that has the same
    name. *)
Definition instance_dict (g : Generator) : dict :=
  [ ("_registry", match _registry g with Some _ => PFunc | None => PNone end);
    ("_key_title_gen", PFunc);
    ("_value_code_gen", PFunc);
    ("_value_code_language", PStr (_value_code_language g));
    ("_ref_tag_gen", PFunc);
    ("_ref_name_gen", PFunc);
    ("_keyword_title_prefix", PStr (_keyword_title_prefix g));
    ("_keyword_title_suffix", PStr (_keyword_title_suffix g));
    ("_keyword_description_prefix", PStr (_keyword_description_prefix g));
    ("_keyword_description_suffix", PStr (_keyword_description_suffix g));
    ("_class_prefix", PStr (_class_prefix g));
    ("_badge_permissive", PDict (_badge_permissive g));
    ("_badge_restrictive", PDict (_badge_restrictive g));
    ("_ref_tag_prefix", PStr (_ref_tag_prefix g));
    ("_badges_header_default", PDict (_badges_header_default g));
    ("_badges_inline_default", PDict (_badges_inline_default g));
    ("_badge_default", PDict (_badge_default g));
    ("_schema", PDict (_schema g));
    ("_schema_jsonpath", PStr (_schema_jsonpath g));
    ("_schema_tag_prefix", PStr (_schema_tag_prefix g));
    ("_instance_jsonpath", PStr (_instance_jsonpath g)) ].

(** The names the class body defines. *)
Definition class_attributes : list string :=
  [ "__init__"; "generate_schema"; "generate_properties";
    "generate_pattern_properties"; "generate_if_then_else"; "_generate_props";
    "_generate_badges"; "_generate_tabs"; "_generate_summary";
    "_generate_description"; "_badge_deprecated"; "_badge_read_only";
    "_badge_write_only"; "_badge_type"; "_badge_format";
    "_badge_content_media_type"; "_badge_content_encoding";
    "_badge_min_length"; "_badge_max_length"; "_badge_minimum";
    "_badge_exclusive_minimum"; "_badge_maximum"; "_badge_exclusive_maximum";
    "_badge_multiple_of"; "_badge_min_items"; "_badge_max_items";
    "_badge_min_contains"; "_badge_max_contains"; "_badge_unique_items";
    "_badge_unevaluated_items"; "_badge_min_properties";
    "_badge_max_properties"; "_badge_unevaluated_properties";
    "_badge_default"; "_badge_required"; "_badge_dependent_required";
    "_badge_const"; "_badge_pattern"; "_badge_enum"; "_badge_content_schema";
    "_badge_prefix_items"; "_badge_ref"; "tab_const"; "_tab_pattern";
    "_tab_required"; "_tab_jsonschema"; "_tab_default"; "_tab_enum";
    "_tab_examples"; "_make_badges"; "_make_keyword_badge_kwargs";
    "_make_badge_kwargs"; "_make_tab_item_array"; "_make_tab_item_simple";
    "_make_tab_item"; "_get_description_key"; "_get_title_key";
    "_make_class_name"; "_make_tag" ].

Definition mem_str (x : string) (l : list string) : bool :=
  existsb (String.eqb x) l.

(** [self.name], read as a value: the instance dict first, then the
    class, where a method reads as a function object. *)
Definition getattr_value (g : Generator) (name : string) : result pyval :=
  match dict_get name (instance_dict g) with
  | Some v => Return v
  | None =>
      if mem_str name class_attributes then Return PFunc
      else Raise (AttributeError name)
  end.

(** The names bound at module level in [default.py] (its imports and the
    class); a name read in a function body that is neither local nor one
    of these (nor a builtin) raises [NameError]. *)
Definition module_globals : list string :=
  [ "_annotations"; "_TYPE_CHECKING"; "_mdit"; "_ps"; "_pl"; "_meta";
    "_schemator"; "DefaultGenerator" ].

Definition load_global (name : string) : result unit :=
  if mem_str name module_globals then Return tt else Raise (NameError name).

(* ------------------------------------------------------------------ *)
(** ** External collaborators

    Functions of the libraries the module imports ([pylinks],
    [pyserials], [mdit]) and of the Python runtime.  The generator is
    defined, and its properties are proved, for any behaviour of
    theirs. *)
Class Collaborators : Type := {
  (** [pylinks.string.camel_to_snake] *)
  camel_to_snake : string -> string;
  (** [pylinks.string.camel_to_title] *)
  camel_to_title : string -> string;
  (** [pylinks.string.to_slug] *)
  to_slug : string -> string;
  (** [str(v)] for the values whose text is not fixed by [py_str]:
      floats, lists, dicts and function objects. *)
  py_repr : pyval -> string;
  (** [str.strip] *)
  str_strip : string -> string;
  (** Truth value of an [mdit] element. *)
  mdit_bool : element -> bool;
  (** [pyserials.update.dict_from_addon(data, addon)]: [data] as the call
      leaves it. *)
  dict_from_addon : dict -> dict -> dict
}.

(* ------------------------------------------------------------------ *)
(** ** Stand-ins for the external collaborators

    Simple versions of the library functions the generator calls, to
    evaluate it on concrete inputs.  Nothing proved in general depends on
    them. *)

Definition is_upper (c : ascii) : bool :=
  let n := nat_of_ascii c in (Nat.leb 65 n && Nat.leb n 90)%bool.

Definition is_alnum (c : ascii) : bool :=
  let n := nat_of_ascii c in
  ((Nat.leb 48 n && Nat.leb n 57) || (Nat.leb 65 n && Nat.leb n 90)
   || (Nat.leb 97 n && Nat.leb n 122))%bool.

(** An underscore before each capital, all in lower case. *)
Fixpoint sample_camel_to_snake (s : string) : string :=
  match s with
  | EmptyString => EmptyString
  | String c r =>
      if is_upper c
      then String "_" (String (ascii_lower c) (sample_camel_to_snake r))
      else String c (sample_camel_to_snake r)
  end.

(** A space before each capital. *)
Fixpoint sample_camel_to_title (s : string) : string :=
  match s with
  | EmptyString => EmptyString
  | String c r =>
      if is_upper c
      then String " " (String c (sample_camel_to_title r))
      else String c (sample_camel_to_title r)
  end.

(** Lower case, a hyphen for whatever is not a letter or a digit. *)
Fixpoint sample_to_slug (s : string) : string :=
  match s with
  | EmptyString => EmptyString
  | String c r =>
      String (if is_alnum c then ascii_lower c else "-"%char)
             (sample_to_slug r)
  end.

Definition sample_repr (v : pyval) : string := "<object>".

Fixpoint strip_left (s : string) : string :=
  match s with
  | String c r => if Ascii.eqb c " " then strip_left r else s
  | EmptyString => EmptyString
  end.

Definition sample_strip (s : string) : string :=
  let rev_str t := string_of_list_ascii (rev (list_ascii_of_string t)) in
  rev_str (strip_left (rev_str (strip_left s))).

Definition sample_mdit_bool (e : element) : bool := true.

(** Keys of [addon] that [data] lacks are added to it. *)
Definition sample_dict_from_addon (data addon : dict) : dict :=
  fold_left (fun acc kv =>
               if dict_has (fst kv) acc then acc else (acc ++ [kv])%list)
            addon data.

Definition sample_collaborators : Collaborators :=
  {| camel_to_snake := sample_camel_to_snake;
     camel_to_title := sample_camel_to_title;
     to_slug := sample_to_slug;
     py_repr := sample_repr;
     str_strip := sample_strip;
     mdit_bool := sample_mdit_bool;
     dict_from_addon := sample_dict_from_addon |}.

(* ------------------------------------------------------------------ *)
(** ** The methods of [DefaultGenerator] *)

(** Arguments of [_make_keyword_badge_kwargs] that are a string, a
    callable or [None]. *)
Inductive message_arg : Type :=
| MsgNone
| MsgStr (s : string)
| MsgFun (f : pyval -> result pyval).

Inductive complex_arg : Type :=
| CxStr (s : string)
| CxFun (f : pyval -> result pyval).

Inductive title_arg : Type :=
| TitleNone
| TitleStr (s : string)
| TitleFun (f : pyval -> result string).

Inductive link_arg : Type :=
| LinkNone
| LinkStr (s : string)
| LinkFun (f : pyval -> option string).

(** The local [message] of [_make_keyword_badge_kwargs] once the
    [if not message] block is over. *)
Inductive message_obj : Type :=
| MoStr (s : string)
| MoFun (f : pyval -> result pyval)
| MoObj (v : pyval).

Definition message_obj_of (v : pyval) : message_obj :=
  match v with
  | PStr s => MoStr s
  | _ => MoObj v
  end.

(** [title] as the object it is when handed to another call. *)
Definition title_object (t : title_arg) : pyval :=
  match t with
  | TitleNone => PNone
  | TitleStr s => PStr s
  | TitleFun _ => PFunc
  end.

Definition opt_str (o : option string) : pyval :=
  match o with Some s => PStr s | None => PNone end.

Section Methods.

Context {lib : Collaborators}.

(** [str(v)], which is also what [f"{v}"] interpolates. *)
Definition py_str (v : pyval) : string :=
  match v with
  | PNone => "None"
  | PBool true => "True"
  | PBool false => "False"
  | PInt n => str_of_Z n
  | PStr s => s
  | _ => py_repr v
  end.

(** *** Naming helpers *)

Definition _get_description_key (g : Generator) (key : string) : string :=
  _keyword_description_prefix g ++ key ++ _keyword_description_suffix g.

Definition _get_title_key (g : Generator) (key : string) : string :=
  _keyword_title_prefix g ++ key ++ _keyword_title_suffix g.

Definition _make_class_name (g : Generator) (parts : list string) : string :=
  to_slug (_class_prefix g ++ str_join "-" parts).

Definition _make_tag (g : Generator) (parts : list string) : string :=
  to_slug (_schema_tag_prefix g ++ "-" ++ _schema_jsonpath g ++ "-"
           ++ str_join "-" parts).

(** *** Badge descriptors *)

Definition _make_badge_kwargs (g : Generator) (key : string)
    (message : pyval) (label : string) (link : option string)
    (title : pyval) (config : option dict) : result dict :=
  let kwargs :=
    [ ("label", PStr (if truthy (PStr label) then label
                      else _key_title_gen g key));
      ("args", PDict [("message", PStr (py_str message))]);
      ("alt", if truthy (PStr label)
              then PStr (label ++ ": " ++ py_str message) else message);
      ("link", opt_str link);
      ("title", title) ] in
  let config_or := match config with Some c => c | None => [] end in
  match dict_get_or key (PDict []) (_badge_default g) with
  | PDict per_key => Return (dict_or (dict_or kwargs config_or) per_key)
  | _ => Raise TypeError
  end.

Definition not_message (m : message_arg) : bool :=
  match m with
  | MsgNone => true
  | MsgStr s => negb (truthy (PStr s))
  | MsgFun _ => false
  end.

Definition _make_keyword_badge_kwargs (g : Generator) (key : string)
    (message : message_arg) (value : option pyval)
    (true_is_permissive : bool) (message_complex : complex_arg)
    (title : title_arg) (link : link_arg) : result (option dict) :=
  if negb (dict_has key (_schema g)) then Return None else
  value <- match value with
           | Some v => Return v
           | None => dict_item key (_schema g)
           end ;;
  mc <- (if not_message message then
           match value with
           | PBool b =>
               Return (MoStr (str_lower (py_str value)),
                       Some (if Bool.eqb b true_is_permissive
                             then _badge_permissive g
                             else _badge_restrictive g))
           | PList l =>
               s <- py_join " | " l ;; Return (MoStr s, None)
           | PInt _ | PFloat _ _ | PStr _ =>
               Return (MoStr (py_str value), None)
           | _ =>
               match message_complex with
               | CxStr s => Return (MoStr s, None)
               | CxFun f => r <- f value ;; Return (message_obj_of r, None)
               end
           end
         else
           Return (match message with
                   | MsgNone => MoObj PNone
                   | MsgStr s => MoStr s
                   | MsgFun f => MoFun f
                   end, None)) ;;
  let '(message, badge_config) := mc in
  msg <- match message with
         | MoStr s => Return (PStr s)
         | MoFun f => f (title_object title)
         | MoObj PFunc => Raise Unmodelled
         | MoObj _ => Raise TypeError
         end ;;
  dflt <- match title with
          | TitleNone => Return PNone
          | TitleStr s => Return (PStr s)
          | TitleFun f => s <- f value ;; Return (PStr s)
          end ;;
  let ttl := dict_get_or (_get_title_key g key) dflt (_schema g) in
  let lnk := match link with
             | LinkNone => None
             | LinkStr s => Some s
             | LinkFun f => f value
             end in
  kw <- _make_badge_kwargs g key msg "" lnk ttl badge_config ;;
  Return (Some kw).

(** The default of the parameter [message_complex]:
    [lambda value: len(value)]. *)
Definition message_complex_default : complex_arg :=
  CxFun (fun value => n <- py_len value ;; Return (PInt n)).

(** A rule that passes only [key] and [title]. *)
Definition keyword_badge (g : Generator) (key : string)
    (title : title_arg) : result (option dict) :=
  _make_keyword_badge_kwargs g key MsgNone None false
    message_complex_default title LinkNone.

(** *** Badge rules *)

Definition _badge_deprecated (g : Generator) : result (option dict) :=
  keyword_badge g Key.DEPRECATED
    (TitleFun (fun value =>
       Return ("This value is " ++ (if truthy value then "" else "not ")
               ++ "deprecated."))).

Definition _badge_read_only (g : Generator) : result (option dict) :=
  keyword_badge g Key.READ_ONLY
    (TitleFun (fun value =>
       Return ("This value is " ++ (if truthy value then "" else "not ")
               ++ "read-only."))).

Definition _badge_write_only (g : Generator) : result (option dict) :=
  keyword_badge g Key.WRITE_ONLY
    (TitleFun (fun value =>
       Return ("This value is " ++ (if truthy value then "" else "not ")
               ++ "write-only."))).

Definition _badge_type (g : Generator) : result (option dict) :=
  keyword_badge g Key.TYPE
    (TitleFun (fun value =>
       match value with
       | PList l =>
           s <- py_join ", " l ;;
           Return ("This value must have one of the following data types: "
                   ++ s ++ ".")
       | _ => Return ("This value must be of type " ++ py_str value ++ ".")
       end)).

Definition _badge_format (g : Generator) : result (option dict) :=
  keyword_badge g Key.FORMAT
    (TitleFun (fun value =>
       Return ("This value must be a string with '" ++ py_str value
               ++ "' format."))).

Definition _badge_content_media_type (g : Generator) : result (option dict) :=
  keyword_badge g Key.CONTENT_MEDIA_TYPE
    (TitleFun (fun value =>
       Return ("This value must be a string with '" ++ py_str value
               ++ "' MIME type."))).

Definition _badge_content_encoding (g : Generator) : result (option dict) :=
  keyword_badge g Key.CONTENT_ENCODING
    (TitleFun (fun value =>
       Return ("This value must be a string with '" ++ py_str value
               ++ "' encoding."))).

Definition _badge_min_length (g : Generator) : result (option dict) :=
  keyword_badge g Key.MIN_LENGTH
    (TitleFun (fun value =>
       Return ("This value must be a string with a minimum length of "
               ++ py_str value ++ "."))).

Definition _badge_max_length (g : Generator) : result (option dict) :=
  keyword_badge g Key.MAX_LENGTH
    (TitleFun (fun value =>
       Return ("This value must be a string with a maximum length of "
               ++ py_str value ++ "."))).

Definition _badge_minimum (g : Generator) : result (option dict) :=
  keyword_badge g Key.MINIMUM
    (TitleFun (fun value =>
       Return ("This value must be greater than or equal to "
               ++ py_str value ++ "."))).

Definition _badge_exclusive_minimum (g : Generator) : result (option dict) :=
  keyword_badge g Key.EXCLUSIVE_MINIMUM
    (TitleFun (fun value =>
       Return ("This value must be greater than " ++ py_str value ++ "."))).

(** As in the source, the rule named after [maximum] passes
    [Key.MAX_LENGTH]. *)
Definition _badge_maximum (g : Generator) : result (option dict) :=
  keyword_badge g Key.MAX_LENGTH
    (TitleFun (fun value =>
       Return ("This value must be smaller than or equal to "
               ++ py_str value ++ "."))).

Definition _badge_exclusive_maximum (g : Generator) : result (option dict) :=
  keyword_badge g Key.EXCLUSIVE_MAXIMUM
    (TitleFun (fun value =>
       Return ("This value must be smaller than " ++ py_str value ++ "."))).

Definition _badge_multiple_of (g : Generator) : result (option dict) :=
  keyword_badge g Key.MULTIPLE_OF
    (TitleFun (fun value =>
       Return ("This value must be a multiple of " ++ py_str value ++ "."))).

Definition _badge_min_items (g : Generator) : result (option dict) :=
  keyword_badge g Key.MIN_ITEMS
    (TitleFun (fun value =>
       Return ("This array must contain " ++ py_str value
               ++ " or more elements."))).

Definition _badge_max_items (g : Generator) : result (option dict) :=
  keyword_badge g Key.MAX_ITEMS
    (TitleFun (fun value =>
       Return ("This array must contain " ++ py_str value
               ++ " or less elements."))).

Definition _badge_min_contains (g : Generator) : result (option dict) :=
  let key := Key.MIN_CONTAINS in
  _make_keyword_badge_kwargs g key MsgNone None false
    message_complex_default
    (TitleFun (fun value =>
       Return ("This array must contain " ++ py_str value
               ++ " or more elements conforming to the `contains` schema.")))
    (LinkStr ("#" ++ _make_tag g [key])).

Definition _badge_max_contains (g : Generator) : result (option dict) :=
  let key := Key.MAX_CONTAINS in
  _make_keyword_badge_kwargs g key MsgNone None false
    message_complex_default
    (TitleFun (fun value =>
       Return ("This array must contain " ++ py_str value
               ++ " or less elements conforming to the `contains` schema.")))
    (LinkStr ("#" ++ _make_tag g [key])).

Definition _badge_unique_items (g : Generator) : result (option dict) :=
  keyword_badge g Key.UNIQUE_ITEMS
    (TitleFun (fun value =>
       Return (if truthy value then "All array elements must be unique."
               else "Array elements do not need to be unique."))).

Definition _badge_unevaluated_items (g : Generator) : result (option dict) :=
  let key := Key.UNEVALUATED_ITEMS in
  _make_keyword_badge_kwargs g key MsgNone None true
    (CxFun (fun _ => Return (PStr "Defined")))
    (TitleFun (fun value =>
       Return
         match value with
         | PBool _ =>
             "Array elements other than those defined in `items`, `prefixItems`, or `contains` are "
             ++ (if truthy value then "" else "not ") ++ "allowed."
         | _ =>
             "Array elements other than those defined in `items`, `prefixItems`, or `contains` must conform to a separate schema."
         end))
    (LinkFun (fun value =>
       match value with
       | PDict _ => Some ("#" ++ _make_tag g [key])
       | _ => None
       end)).

Definition _badge_min_properties (g : Generator) : result (option dict) :=
  keyword_badge g Key.MIN_PROPERTIES
    (TitleFun (fun value =>
       Return ("This object must contain " ++ py_str value
               ++ " or more properties."))).

Definition _badge_max_properties (g : Generator) : result (option dict) :=
  keyword_badge g Key.MAX_PROPERTIES
    (TitleFun (fun value =>
       Return ("This object must contain " ++ py_str value
               ++ " or less properties."))).

Definition _badge_unevaluated_properties (g : Generator)
    : result (option dict) :=
  let key := Key.UNEVALUATED_PROPERTIES in
  _make_keyword_badge_kwargs g key MsgNone None true
    (CxFun (fun _ => Return (PStr "Defined")))
    (TitleFun (fun value =>
       Return
         match value with
         | PBool _ =>
             "Unevaluated object properties are "
             ++ (if truthy value then "" else "not ") ++ "allowed."
         | _ =>
             "Unevaluated object properties must conform to a separate schema."
         end))
    (LinkFun (fun value =>
       match value with
       | PDict _ => Some ("#" ++ _make_tag g [key])
       | _ => None
       end)).

(** The method [_badge_default] of the class.  On an instance the name
    [_badge_default] reads the dict [__init__] stored under it, not this
    method (see [call_badge_method]). *)
Definition _badge_default_method (g : Generator) : result (option dict) :=
  let key := Key.DEFAULT in
  _make_keyword_badge_kwargs g key MsgNone (Some (PBool true)) true
    message_complex_default
    (TitleStr "This value has a default.")
    (LinkStr ("#" ++ _make_tag g [key])).

Definition _badge_required (g : Generator) : result (option dict) :=
  let key := Key.REQUIRED in
  _make_keyword_badge_kwargs g key
    (MsgFun (fun value => n <- py_len value ;; Return (PStr (str_of_Z n))))
    None false message_complex_default
    (TitleFun (fun value =>
       Return ("This object has " ++ py_str value
               ++ " required properties.")))
    (LinkStr ("#" ++ _make_tag g [key])).

Definition _badge_dependent_required (g : Generator)
    : result (option dict) :=
  let key := Key.DEPENDENT_REQUIRED in
  _make_keyword_badge_kwargs g key
    (MsgFun (fun value => n <- py_len value ;; Return (PStr (str_of_Z n))))
    None false message_complex_default
    (TitleFun (fun value =>
       match value with
       | PDict d =>
           lens <- mapM (fun kv => py_len (snd kv)) d ;;
           Return ("This object has "
                   ++ str_of_Z (fold_left Z.add lens 0)
                   ++ " required properties depending on "
                   ++ str_of_Z (Z.of_nat (List.length d))
                   ++ " other properties.")
       | _ => Raise (AttributeError "values")
       end))
    (LinkStr ("#" ++ _make_tag g [key])).

Definition _badge_const (g : Generator) : result (option dict) :=
  let key := Key.CONST in
  _make_keyword_badge_kwargs g key MsgNone (Some (PBool true)) false
    message_complex_default
    (TitleStr "This value is a constant.")
    (LinkStr ("#" ++ _make_tag g [key])).

Definition _badge_pattern (g : Generator) : result (option dict) :=
  let key := Key.PATTERN in
  _make_keyword_badge_kwargs g key MsgNone (Some (PBool true)) false
    message_complex_default
    (TitleStr "This string must match a RegEx pattern.")
    (LinkStr ("#" ++ _make_tag g [key])).

Definition _badge_enum (g : Generator) : result (option dict) :=
  let key := Key.ENUM in
  _make_keyword_badge_kwargs g key MsgNone (Some (PBool true)) false
    message_complex_default
    (TitleStr "This value must be equal to one of the enumerated values.")
    (LinkStr ("#" ++ _make_tag g [key])).

Definition _badge_content_schema (g : Generator) : result (option dict) :=
  let key := Key.CONTENT_SCHEMA in
  _make_keyword_badge_kwargs g key MsgNone (Some (PBool true)) false
    message_complex_default
    (TitleStr "This media content has a defined schema.")
    (LinkStr ("#" ++ _make_tag g [key])).

Definition _badge_prefix_items (g : Generator) : result (option dict) :=
  let key := Key.PREFIX_ITEMS in
  _make_keyword_badge_kwargs g key
    (MsgFun (fun value => n <- py_len value ;; Return (PStr (str_of_Z n))))
    None false message_complex_default
    (TitleFun (fun value =>
       Return ("The first " ++ py_str value
               ++ " elements of this array are individually defined.")))
    (LinkStr ("#" ++ _make_tag g [key])).

Definition _badge_ref (g : Generator) : result (option dict) :=
  let key := Key.REF in
  let ref_id := dict_get_none key (_schema g) in
  if negb (truthy ref_id) then Return None else
  match _registry g with
  | None => Raise (ValueError "Schema has ref but no registry given.")
  | Some registry =>
      if negb (registry_bool registry)
      then Raise (ValueError "Schema has ref but no registry given.")
      else
        ref_schema <- registry_contents registry ref_id ;;
        ref_key <- _ref_tag_gen g ref_schema ;;
        message <- _ref_name_gen g ref_schema ;;
        slug <- match ref_key with
                | PStr s => Return (to_slug s)
                | _ => Raise TypeError
                end ;;
        kw <- _make_badge_kwargs g key message ""
                (Some ("#" ++ _ref_tag_prefix g ++ "-" ++ slug))
                (PStr ("This schema references another schema with ID '"
                       ++ py_str ref_id ++ "'."))
                None ;;
        Return (Some kw)
  end.

Definition _make_badges (g : Generator) (items : list dict)
    (inline : bool) : result element :=
  let kwargs := if inline then _badges_inline_default g
                else _badges_header_default g in
  if (dict_has "service" kwargs || dict_has "items" kwargs)%bool
  then Raise TypeError else
  let badges := EBadges "static" items kwargs in
  classes <- getattr_value g (if inline then "_badges_inline_classes"
                              else "_badges_header_classes") ;;
  Return (EAttribute badges true classes).

(** *** The badge strip *)

(** The keys [_generate_badges] walks, in its order. *)
Definition badge_keys : list string :=
  [ Key.DEPRECATED; Key.READ_ONLY; Key.WRITE_ONLY; Key.TYPE;
    Key.FORMAT; Key.CONTENT_MEDIA_TYPE; Key.CONTENT_ENCODING;
    Key.MIN_LENGTH; Key.MAX_LENGTH;
    Key.MINIMUM; Key.EXCLUSIVE_MINIMUM; Key.MAXIMUM;
    Key.EXCLUSIVE_MAXIMUM; Key.MULTIPLE_OF;
    Key.MIN_ITEMS; Key.MAX_ITEMS; Key.MIN_CONTAINS; Key.MAX_CONTAINS;
    Key.UNIQUE_ITEMS; Key.UNEVALUATED_ITEMS;
    Key.MIN_PROPERTIES; Key.MAX_PROPERTIES; Key.UNEVALUATED_PROPERTIES;
    Key.DEFAULT; Key.REQUIRED; Key.DEPENDENT_REQUIRED; Key.CONST;
    Key.PATTERN; Key.ENUM;
    Key.CONTENT_SCHEMA;
    Key.PREFIX_ITEMS; Key.ITEMS; Key.CONTAINS;
    Key.PROPERTIES; Key.PATTERN_PROPERTIES; Key.ADDITIONAL_PROPERTIES;
    Key.PROPERTY_NAMES; Key.DEPENDENT_SCHEMAS;
    Key.ALL_OF; Key.ONE_OF; Key.ANY_OF; Key.NOT; Key.IF; Key.REF ].

(** The methods of the class whose name starts with [_badge_]. *)
Definition badge_methods
    : list (string * (Generator -> result (option dict))) :=
  [ ("_badge_deprecated", _badge_deprecated);
    ("_badge_read_only", _badge_read_only);
    ("_badge_write_only", _badge_write_only);
    ("_badge_type", _badge_type);
    ("_badge_format", _badge_format);
    ("_badge_content_media_type", _badge_content_media_type);
    ("_badge_content_encoding", _badge_content_encoding);
    ("_badge_min_length", _badge_min_length);
    ("_badge_max_length", _badge_max_length);
    ("_badge_minimum", _badge_minimum);
    ("_badge_exclusive_minimum", _badge_exclusive_minimum);
    ("_badge_maximum", _badge_maximum);
    ("_badge_exclusive_maximum", _badge_exclusive_maximum);
    ("_badge_multiple_of", _badge_multiple_of);
    ("_badge_min_items", _badge_min_items);
    ("_badge_max_items", _badge_max_items);
    ("_badge_min_contains", _badge_min_contains);
    ("_badge_max_contains", _badge_max_contains);
    ("_badge_unique_items", _badge_unique_items);
    ("_badge_unevaluated_items", _badge_unevaluated_items);
    ("_badge_min_properties", _badge_min_properties);
    ("_badge_max_properties", _badge_max_properties);
    ("_badge_unevaluated_properties", _badge_unevaluated_properties);
    ("_badge_default", _badge_default_method);
    ("_badge_required", _badge_required);
    ("_badge_dependent_required", _badge_dependent_required);
    ("_badge_const", _badge_const);
    ("_badge_pattern", _badge_pattern);
    ("_badge_enum", _badge_enum);
    ("_badge_content_schema", _badge_content_schema);
    ("_badge_prefix_items", _badge_prefix_items);
    ("_badge_ref", _badge_ref) ].

Fixpoint find_method {M : Type} (name : string) (table : list (string * M))
    : option M :=
  match table with
  | [] => None
  | (n, m) :: r => if String.eqb name n then Some m else find_method name r
  end.

(** [getattr(self, name)()] under the guard [hasattr(self, name)], for a
    name that starts with [_badge_]: [None] when the guard fails.  The
    instance dict is read first, and what it holds under such a name is
    a dict, which cannot be called. *)
Definition call_badge_method (g : Generator) (name : string)
    : option (result (option dict)) :=
  match dict_get name (instance_dict g) with
  | Some PFunc => Some (Raise Unmodelled)
  | Some _ => Some (Raise TypeError)
  | None =>
      match find_method name badge_methods with
      | Some m => Some (m g)
      | None =>
          if mem_str name class_attributes then Some (Raise Unmodelled)
          else None
      end
  end.

Fixpoint badge_loop (g : Generator) (keys : list string)
    (badge_items : list dict) : result (list dict) :=
  match keys with
  | [] => Return badge_items
  | key :: rest =>
      let method_name := "_badge_" ++ camel_to_snake key in
      match call_badge_method g method_name with
      | None => badge_loop g rest badge_items
      | Some call =>
          badge_item <- call ;;
          match badge_item with
          | Some item =>
              if truthy (PDict item)
              then badge_loop g rest (badge_items ++ [item])
              else badge_loop g rest badge_items
          | None => badge_loop g rest badge_items
          end
      end
  end.

Definition _generate_badges (g : Generator) (instance_jsonpath : string)
    : result element :=
  first <- _make_badge_kwargs g "JSONPath" (PStr instance_jsonpath)
             "JSONPath" None PNone None ;;
  badge_items <- badge_loop g badge_keys [first] ;;
  _make_badges g badge_items false.

(** *** Tabs *)

Definition _make_tab_item (g : Generator) (key : string)
    (content : element) (title : option string) : element :=
  ETabItem content
    (match title with
     | Some t => if truthy (PStr t) then t else _key_title_gen g key
     | None => _key_title_gen g key
     end)
    (_make_tag g [key])
    [_make_class_name g ["tab-item-container"]]
    [_make_class_name g ["tab-item-content"]]
    [_make_class_name g ["tab-item-label"]].

(** [code_block(content=self._value_code_gen(value).strip(), ...)] *)
Definition value_code_block (g : Generator) (value : pyval)
    : result element :=
  match _value_code_gen g value with
  | PStr s => Return (ECodeBlock (str_strip s) (_value_code_language g))
  | _ => Raise (AttributeError "strip")
  end.

(** [seq[idx]] for a natural number [idx]. *)
Definition py_index (seq : pyval) (idx : nat) : result pyval :=
  match seq with
  | PList l =>
      match nth_error l idx with
      | Some v => Return v
      | None => Raise IndexError
      end
  | PStr s =>
      match nth_error (str_chars s) idx with
      | Some c => Return (PStr c)
      | None => Raise IndexError
      end
  | PDict _ => Raise KeyError
  | _ => Raise TypeError
  end.

Fixpoint array_items (g : Generator) (descriptions : pyval)
    (desc_count : Z) (idx : nat) (values : list pyval)
    : result (list element) :=
  match values with
  | [] => Return []
  | value :: rest =>
      value_block <- value_code_block g value ;;
      item <- (if Z.of_nat idx <? desc_count
               then d <- py_index descriptions idx ;;
                    Return (EBlockContainer
                              [(None, EValue d); (None, value_block)]
                              None [])
               else Return value_block) ;;
      items <- array_items g descriptions desc_count (S idx) rest ;;
      Return (item :: items)
  end.

Definition _make_tab_item_array (g : Generator) (key : string)
    (title : option string) : result (option element) :=
  let values := dict_get_none key (_schema g) in
  let intro := dict_get_none (_get_title_key g key) (_schema g) in
  if negb (truthy intro || truthy values) then Return None else
  let content := if truthy intro then [(Some "intro", EValue intro)]
                 else [] in
  content <- (if truthy values then
                let descriptions :=
                  dict_get_or (_get_description_key g key) (PList [])
                    (_schema g) in
                desc_count <- py_len descriptions ;;
                vs <- py_iter values ;;
                output_list <- array_items g descriptions desc_count 0 vs ;;
                Return (content ++ [(None, EOrderedList output_list)])%list
              else Return content) ;;
  Return (Some (_make_tab_item g key (EBlockContainer content None [])
                  title)).

Definition _make_tab_item_simple (g : Generator) (key : string)
    (title : option string) : result (option element) :=
  let value := dict_get_none key (_schema g) in
  let intro := dict_get_none (_get_title_key g key) (_schema g) in
  let description :=
    dict_get_none (_get_description_key g key) (_schema g) in
  if negb (truthy value || truthy intro || truthy description)
  then Return None else
  let content :=
    ((if truthy intro then [(Some "title", EValue intro)] else [])
     ++ (if truthy description
         then [(Some "description", EValue description)] else []))%list in
  content <- (if truthy value then
                value_block <- value_code_block g value ;;
                Return (content ++ [(Some "value", value_block)])%list
              else Return content) ;;
  Return (Some (_make_tab_item g key (EBlockContainer content None [])
                  title)).

Definition tab_const (g : Generator) : result (option element) :=
  _make_tab_item_simple g Key.CONST None.

Definition _tab_pattern (g : Generator) : result (option element) :=
  _make_tab_item_simple g Key.PATTERN None.

Definition _tab_default (g : Generator) : result (option element) :=
  _make_tab_item_simple g Key.DEFAULT None.

Definition _tab_enum (g : Generator) : result (option element) :=
  _make_tab_item_array g Key.ENUM None.

Definition _tab_examples (g : Generator) : result (option element) :=
  _make_tab_item_array g Key.EXAMPLES None.

(** [_make_tag(Key.PROPERTIES, name)]: the parts are joined with
    [str.join], which takes strings only. *)
Definition property_tag (g : Generator) (name : pyval) : result string :=
  match name with
  | PStr s => Return (_make_tag g [Key.PROPERTIES; s])
  | _ => Raise TypeError
  end.

(** One entry of the first loop of [_tab_required]. *)
Definition required_entry (g : Generator) (properties req : pyval)
    : result element :=
  let req_code := "`" ++ py_str req ++ "`" in
  is_prop <- py_in req properties ;;
  if is_prop : bool then
    tag <- property_tag g req ;;
    Return (EText ("[" ++ req_code ++ "](#" ++ tag ++ ")"))
  else Return (EText req_code).

(** One entry of the inner loop: the link text is [dependency_code], as
    the source has it. *)
Definition dependent_entry (g : Generator) (properties : pyval)
    (dependency_code : string) (dependent : pyval) : result element :=
  let dependent_code := "`" ++ py_str dependent ++ "`" in
  is_prop <- py_in dependent properties ;;
  if is_prop : bool then
    tag <- property_tag g dependent ;;
    Return (EText ("[" ++ dependency_code ++ "](#" ++ tag ++ ")"))
  else Return (EText dependent_code).

(** One round of the second loop of [_tab_required]. *)
Definition dependency_entry (g : Generator) (properties : pyval)
    (item : string * pyval) : result element :=
  let '(dependency, dependents) := item in
  let dependency_code := "`" ++ dependency ++ "`" in
  is_prop <- py_in (PStr dependency) properties ;;
  dependency_code <-
    (if is_prop : bool then
       tag <- property_tag g (PStr dependency) ;;
       Return ("[" ++ dependency_code ++ "](#" ++ tag ++ ")")
     else Return dependency_code) ;;
  ds <- py_iter dependents ;;
  deps_list <- mapM (dependent_entry g properties dependency_code) ds ;;
  Return (EBlockContainer
            [ (None, EText ("If " ++ dependency_code ++ " is present:"));
              (None, EUnorderedList deps_list) ]
            None []).

(** The body of [_tab_required] up to and including its call of
    [_make_tab_item]: [None] when the guard returns early, else the tab
    item that call builds. *)
Definition _tab_required_built (g : Generator) : result (option element) :=
  let required := dict_get_or Key.REQUIRED (PList []) (_schema g) in
  let dep_required :=
    dict_get_or Key.DEPENDENT_REQUIRED (PDict []) (_schema g) in
  if negb (truthy required || truthy dep_required) then Return None else
  let properties := dict_get_or Key.PROPERTIES (PDict []) (_schema g) in
  sorted_required <- py_sorted required ;;
  req_list <- mapM (required_entry g properties) sorted_required ;;
  items <- match dep_required with
           | PDict d => Return (sort_items d)
           | _ => Raise (AttributeError "items")
           end ;;
  dep_list <- mapM (dependency_entry g properties) items ;;
  Return (Some (_make_tab_item g Key.REQUIRED
                  (EUnorderedList (req_list ++ dep_list)%list)
                  (Some "Required Properties"))).

(** [_tab_required]: the tab item is built, its value is dropped, and
    the method ends with a bare [return]. *)
Definition _tab_required (g : Generator) : result (option element) :=
  _ <- _tab_required_built g ;;
  Return None.

(** [_tab_jsonschema]: its first statement reads the name [schema],
    later ones [schema_jsonpath] and [add_tab_item]; none of them is a
    parameter, a local or a module-level name.  The nested
    [schema_badges] is only defined before that.  The method ends with a
    bare [return]. *)
Definition _tab_jsonschema (g : Generator) : result (option element) :=
  load_global "schema" ;;;
  load_global "add_tab_item" ;;;
  load_global "schema_id" ;;;
  load_global "schema_jsonpath" ;;;
  Return None.

(** The keys [_generate_tabs] walks, in its order. *)
Definition tab_keys : list string :=
  [ Key.DEFAULT; Key.REQUIRED; Key.DEPENDENT_REQUIRED; Key.CONST;
    Key.PATTERN; Key.ENUM; Key.EXAMPLES ].

(** [getattr(self, name)()] for a name that starts with [tab_]; the
    class has one such method, [tab_const]. *)
Definition call_tab_method (g : Generator) (name : string)
    : result (option element) :=
  match dict_get name (instance_dict g) with
  | Some PFunc => Raise Unmodelled
  | Some _ => Raise TypeError
  | None =>
      if String.eqb name "tab_const" then tab_const g
      else if mem_str name class_attributes then Raise Unmodelled
      else Raise (AttributeError name)
  end.

Definition _generate_tabs (g : Generator) : result element :=
  tab_items <-
    mapM (fun key => call_tab_method g ("tab_" ++ camel_to_snake key))
         (filter (fun key => dict_has key (_schema g)) tab_keys) ;;
  last <- _tab_jsonschema g ;;
  Return (ETabSet (tab_items ++ [last])%list
            [_make_class_name g ["tab-set"]]).

(** *** Summary and description *)

Definition _generate_summary (g : Generator) : option element :=
  let key := Key.SUMMARY in
  let summary := dict_get_none key (_schema g) in
  if truthy summary
  then Some (EParagraph summary (_make_tag g [key])
               [_make_class_name g [key]])
  else None.

Definition _generate_description (g : Generator) : option element :=
  let key := Key.DESCRIPTION in
  let description := dict_get_none key (_schema g) in
  if truthy description
  then Some (EBlockContainer [(None, EValue description)] (Some "div")
               [("class", _make_class_name g [key])])
  else None.

(** *** [generate_schema] *)

(** The four assignments that open [generate_schema]. *)
Definition bind_call (g : Generator) (schema : dict)
    (schema_jsonpath schema_tag_prefix instance_jsonpath : string)
    : Generator :=
  {| _registry := _registry g;
     _key_title_gen := _key_title_gen g;
     _value_code_gen := _value_code_gen g;
     _value_code_language := _value_code_language g;
     _ref_tag_gen := _ref_tag_gen g;
     _ref_name_gen := _ref_name_gen g;
     _keyword_title_prefix := _keyword_title_prefix g;
     _keyword_title_suffix := _keyword_title_suffix g;
     _keyword_description_prefix := _keyword_description_prefix g;
     _keyword_description_suffix := _keyword_description_suffix g;
     _class_prefix := _class_prefix g;
     _badge_permissive := _badge_permissive g;
     _badge_restrictive := _badge_restrictive g;
     _ref_tag_prefix := _ref_tag_prefix g;
     _badges_header_default := _badges_header_default g;
     _badges_inline_default := _badges_inline_default g;
     _badge_default := _badge_default g;
     _schema := schema;
     _schema_jsonpath := schema_jsonpath;
     _schema_tag_prefix := schema_tag_prefix;
     _instance_jsonpath := instance_jsonpath |}.

(** [if x: body[k] = x] for an element or [None]. *)
Definition if_truthy (x : option element) : option element :=
  match x with
  | Some e => if mdit_bool e then Some e else None
  | None => None
  end.

(** [generate_schema]: the outcome of the call and the generator object
    as the call leaves it. *)
Definition generate_schema (g : Generator) (schema : dict)
    (schema_jsonpath schema_tag_prefix instance_jsonpath : string)
    : result Body * Generator :=
  let self := bind_call g schema schema_jsonpath schema_tag_prefix
                instance_jsonpath in
  (badges <- _generate_badges self instance_jsonpath ;;
   let summary := _generate_summary self in
   tabs <- _generate_tabs self ;;
   let description := _generate_description self in
   Return {| body_badges := badges;
             body_seperator := "<hr>";
             body_summary := if_truthy summary;
             body_tabs := tabs;
             body_description := if_truthy description |},
   self).

(** *** Construction *)

(** The parameters of [__init__]; [None] where the source tests for
    it. *)
Record InitArgs : Type := {
  arg_registry : option Registry;
  arg_key_title_gen : string -> string;
  arg_value_code_gen : pyval -> pyval;
  arg_value_code_language : string;
  arg_class_prefix : string;
  arg_ref_tag_prefix : string;
  arg_ref_tag_gen : pyval -> result pyval;
  arg_ref_name_gen : pyval -> result pyval;
  arg_keyword_title_prefix : string;
  arg_keyword_title_suffix : string;
  arg_keyword_description_prefix : string;
  arg_keyword_description_suffix : string;
  arg_badge : option dict;
  arg_badge_permissive : option dict;
  arg_badge_restrictive : option dict;
  arg_badges : option dict;
  arg_badges_header : option dict;
  arg_badges_inline : option dict
}.

(** [x or dflt] for a dict or [None]. *)
Definition dict_or_else (x : option dict) (dflt : dict) : dict :=
  match x with
  | Some d => if truthy (PDict d) then d else dflt
  | None => dflt
  end.

(** [x if x is not None else dflt] *)
Definition dict_if_not_none (x : option dict) (dflt : dict) : dict :=
  match x with
  | Some d => d
  | None => dflt
  end.

Definition __init__ (a : InitArgs) : Generator :=
  let badges :=
    dict_if_not_none (arg_badges a)
      [ ("separator", PInt 2); ("style", PStr "flat-square");
        ("color", PStr "#0B3C75") ] in
  let badge_default :=
    [ (Key.TYPE, PDict [("label", PStr "Type")]);
      (Key.ID, PDict [("label", PStr "ID")]);
      (Key.REF, PDict [("label", PStr "Ref")]);
      (Key.DEFS, PDict [("label", PStr "Defs")]);
      (Key.ALL_OF, PDict [("label", PStr "All Of")]);
      (Key.ANY_OF, PDict [("label", PStr "Any Of")]);
      (Key.REQUIRED, PDict [("color", PStr "#AF1F10")]);
      (Key.DEPRECATED, PDict [("color", PStr "#AF1F10")]);
      (Key.READ_ONLY, PDict [("color", PStr "#D93402")]);
      (Key.WRITE_ONLY, PDict [("color", PStr "#D93402")]) ] in
  {| _registry := arg_registry a;
     _key_title_gen := arg_key_title_gen a;
     _value_code_gen := arg_value_code_gen a;
     _value_code_language := arg_value_code_language a;
     _ref_tag_gen := arg_ref_tag_gen a;
     _ref_name_gen := arg_ref_name_gen a;
     _keyword_title_prefix := arg_keyword_title_prefix a;
     _keyword_title_suffix := arg_keyword_title_suffix a;
     _keyword_description_prefix := arg_keyword_description_prefix a;
     _keyword_description_suffix := arg_keyword_description_suffix a;
     _class_prefix := arg_class_prefix a;
     _badge_permissive :=
       dict_or_else (arg_badge_permissive a) [("color", PStr "#00802B")];
     _badge_restrictive :=
       dict_or_else (arg_badge_restrictive a) [("color", PStr "#AF1F10")];
     _ref_tag_prefix := arg_ref_tag_prefix a;
     _badges_header_default :=
       dict_from_addon
         (dict_if_not_none (arg_badges_header a)
            [("classes", PList [PStr "jsonschema-badge-header"])])
         badges;
     _badges_inline_default :=
       dict_from_addon
         (dict_if_not_none (arg_badges_inline a)
            [("classes", PList [PStr "jsonschema-badge-inline"])])
         badges;
     _badge_default :=
       dict_from_addon (dict_or_else (arg_badge a) []) badge_default;
     _schema := [];
     _schema_jsonpath := "";
     _schema_tag_prefix := "";
     _instance_jsonpath := "" |}.

(** The defaults of the parameters of [__init__]. *)
Definition default_args : InitArgs :=
  {| arg_registry := None;
     arg_key_title_gen := fun keyword => camel_to_title keyword;
     arg_value_code_gen := fun _ => PFunc;
     arg_value_code_language := "yaml";
     arg_class_prefix := "jsonschema-";
     arg_ref_tag_prefix := "jsonschema-ref";
     arg_ref_tag_gen := fun schema =>
       match schema with
       | PDict d => dict_item "$id" d
       | _ => Raise TypeError
       end;
     arg_ref_name_gen := fun schema =>
       match schema with
       | PDict d => id <- dict_item "$id" d ;;
                    Return (dict_get_or "title" id d)
       | _ => Raise (AttributeError "get")
       end;
     arg_keyword_title_prefix := "";
     arg_keyword_title_suffix := "_title";
     arg_keyword_description_prefix := "";
     arg_keyword_description_suffix := "_description";
     arg_badge := None;
     arg_badge_permissive := None;
     arg_badge_restrictive := None;
     arg_badges := None;
     arg_badges_header := None;
     arg_badges_inline := None |}.

(** Two generators with the same configuration: they agree on every
    attribute but the four [generate_schema] rebinds. *)
Definition same_configuration (g1 g2 : Generator) : Prop :=
  _registry g1 = _registry g2 /\
  _key_title_gen g1 = _key_title_gen g2 /\
  _value_code_gen g1 = _value_code_gen g2 /\
  _value_code_language g1 = _value_code_language g2 /\
  _ref_tag_gen g1 = _ref_tag_gen g2 /\
  _ref_name_gen g1 = _ref_name_gen g2 /\
  _keyword_title_prefix g1 = _keyword_title_prefix g2 /\
  _keyword_title_suffix g1 = _keyword_title_suffix g2 /\
  _keyword_description_prefix g1 = _keyword_description_prefix g2 /\
  _keyword_description_suffix g1 = _keyword_description_suffix g2 /\
  _class_prefix g1 = _class_prefix g2 /\
  _badge_permissive g1 = _badge_permissive g2 /\
  _badge_restrictive g1 = _badge_restrictive g2 /\
  _ref_tag_prefix g1 = _ref_tag_prefix g2 /\
  _badges_header_default g1 = _badges_header_default g2 /\
  _badges_inline_default g1 = _badges_inline_default g2 /\
  _badge_default g1 = _badge_default g2.

(** *** Definition lists *)

(** The double quote of the HTML attributes. *)
Definition dquote : string := String (ascii_of_nat 34) EmptyString.

(** [f'<div class="{self._make_class_name("deflist")}">'] *)
Definition deflist_open (g : Generator) : element :=
  EText ("<div class=" ++ dquote ++ _make_class_name g ["deflist"]
         ++ dquote ++ ">").

(** [out[k] = v] on the dict of elements a renderer returns. *)
Fixpoint out_set (k : string) (v : element) (out : list (string * element))
    : list (string * element) :=
  match out with
  | [] => [(k, v)]
  | (k', v') :: r =>
      if String.eqb k k' then (k', v) :: r else (k', v') :: out_set k v r
  end.

Definition generate_properties (g : Generator) : option element := None.

Definition generate_pattern_properties (g : Generator) : option element :=
  None.

(** The loop of [generate_if_then_else].  A truthy sub-schema is handed
    to [self._make_header_badges], which neither [__init__] nor the class
    binds; the names [path] and [schema_path] the body reads next are
    bound nowhere either.  What the body would do with the value of that
    call is not followed. *)
Fixpoint if_then_else_loop (g : Generator) (keys : list string)
    (out : list (string * element)) : result (list (string * element)) :=
  match keys with
  | [] => Return out
  | key :: rest =>
      let sub_schema := dict_get_none key (_schema g) in
      if negb (truthy sub_schema) then if_then_else_loop g rest out
      else
        getattr_value g "_make_header_badges" ;;;
        load_global "path" ;;;
        load_global "schema_path" ;;;
        Raise Unmodelled
  end.

Definition generate_if_then_else (g : Generator)
    : result (list (string * element)) :=
  out <- if_then_else_loop g ["if"; "then"; "else"]
           [("div_open", deflist_open g)] ;;
  Return (out_set "div_close" (EText "</div>") out).

(** The loop of [_generate_props] over [self._schema.items()]: a round
    computes the path of the property and then calls
    [self._make_header_badges], which does not exist.  No round ends, so
    the loop is its first round. *)
Definition props_loop (g : Generator) (pattern : bool) (items : dict)
    (out : list (string * element)) : result (list (string * element)) :=
  match items with
  | [] => Return out
  | (key, sub_schema) :: _ =>
      let path_suffix := if pattern then "[" ++ key ++ "]" else "." ++ key in
      let path_next := _instance_jsonpath g ++ path_suffix in
      getattr_value g "_make_header_badges" ;;;
      Raise Unmodelled
  end.

Definition _generate_props (g : Generator) (pattern : bool)
    : result (list (string * element)) :=
  out <- props_loop g pattern (_schema g) [("div_open", deflist_open g)] ;;
  Return (out_set "div_close" (EText "</div>") out).

(** *** Shapes the properties refer to *)

(** The five entries [_make_badge_kwargs] starts from when it is given a
    string as message and no label. *)
Definition base_kwargs (g : Generator) (key message : string)
    (link : option string) (title : pyval) : dict :=
  [ ("label", PStr (_key_title_gen g key));
    ("args", PDict [("message", PStr message)]);
    ("alt", PStr message);
    ("link", opt_str link);
    ("title", title) ].

(** The entry of [_badge_default] for a keyword, when it is a dict or
    absent. *)
Definition per_key_entry (g : Generator) (key : string) (per_key : dict)
    : Prop :=
  dict_get_or key (PDict []) (_badge_default g) = PDict per_key.

(** The tooltip of a badge: the companion title key when the schema has
    it, else the sentence of the rule. *)
Definition tooltip (g : Generator) (key sentence : string) : pyval :=
  dict_get_or (_get_title_key g key) (PStr sentence) (_schema g).

(** Code blocks paired with descriptions by position: a block with a
    description before it while descriptions last, bare blocks after. *)
Fixpoint pair_descriptions (descriptions : list pyval)
    (blocks : list element) : list element :=
  match blocks with
  | [] => []
  | block :: blocks' =>
      match descriptions with
      | [] => block :: pair_descriptions [] blocks'
      | d :: descriptions' =>
          EBlockContainer [(None, EValue d); (None, block)] None []
          :: pair_descriptions descriptions' blocks'
      end
  end.

(** An entry of the required list: a link for a name among the
    properties, inline code otherwise. *)
Definition render_required (g : Generator) (properties : dict)
    (name : string) : element :=
  let code := "`" ++ name ++ "`" in
  if dict_has name properties
  then EText ("[" ++ code ++ "](#" ++ _make_tag g [Key.PROPERTIES; name]
              ++ ")")
  else EText code.

(** A value that is a string or a number but not a boolean: what
    [isinstance(value, (int, float, str))] accepts once booleans and
    lists are set apart. *)
Definition is_scalar (v : pyval) : bool :=
  match v with
  | PInt _ | PFloat _ _ | PStr _ => true
  | _ => false
  end.

(** The value of the parameter [link] once it is resolved. *)
Definition link_value (l : link_arg) (value : pyval) : option string :=
  match l with
  | LinkNone => None
  | LinkStr s => Some s
  | LinkFun f => f value
  end.

(** The rules that show a scalar value: keyword, rule, sentence of the
    tooltip as a function of the text of the value, and whether the badge
    links to the anchor of the keyword.  The rule named after [maximum]
    is left out: it reads another keyword. *)
Definition scalar_rules
    : list (string * (Generator -> result (option dict))
            * (string -> string) * bool) :=
  [ (Key.TYPE, _badge_type,
     fun v => "This value must be of type " ++ v ++ ".", false);
    (Key.FORMAT, _badge_format,
     fun v => "This value must be a string with '" ++ v ++ "' format.",
     false);
    (Key.CONTENT_MEDIA_TYPE, _badge_content_media_type,
     fun v => "This value must be a string with '" ++ v ++ "' MIME type.",
     false);
    (Key.CONTENT_ENCODING, _badge_content_encoding,
     fun v => "This value must be a string with '" ++ v ++ "' encoding.",
     false);
    (Key.MIN_LENGTH, _badge_min_length,
     fun v => "This value must be a string with a minimum length of "
              ++ v ++ ".", false);
    (Key.MAX_LENGTH, _badge_max_length,
     fun v => "This value must be a string with a maximum length of "
              ++ v ++ ".", false);
    (Key.MINIMUM, _badge_minimum,
     fun v => "This value must be greater than or equal to " ++ v ++ ".",
     false);
    (Key.EXCLUSIVE_MINIMUM, _badge_exclusive_minimum,
     fun v => "This value must be greater than " ++ v ++ ".", false);
    (Key.EXCLUSIVE_MAXIMUM, _badge_exclusive_maximum,
     fun v => "This value must be smaller than " ++ v ++ ".", false);
    (Key.MULTIPLE_OF, _badge_multiple_of,
     fun v => "This value must be a multiple of " ++ v ++ ".", false);
    (Key.MIN_ITEMS, _badge_min_items,
     fun v => "This array must contain " ++ v ++ " or more elements.",
     false);
    (Key.MAX_ITEMS, _badge_max_items,
     fun v => "This array must contain " ++ v ++ " or less elements.",
     false);
    (Key.MIN_CONTAINS, _badge_min_contains,
     fun v => "This array must contain " ++ v
              ++ " or more elements conforming to the `contains` schema.",
     true);
    (Key.MAX_CONTAINS, _badge_max_contains,
     fun v => "This array must contain " ++ v
              ++ " or less elements conforming to the `contains` schema.",
     true);
    (Key.MIN_PROPERTIES, _badge_min_properties,
     fun v => "This object must contain " ++ v ++ " or more properties.",
     false);
    (Key.MAX_PROPERTIES, _badge_max_properties,
     fun v => "This object must contain " ++ v ++ " or less properties.",
     false) ].

(** The rules that show only that a keyword is there: keyword, rule and
    tooltip. *)
Definition presence_rules
    : list (string * (Generator -> result (option dict)) * string) :=
  [ (Key.CONST, _badge_const, "This value is a constant.");
    (Key.PATTERN, _badge_pattern, "This string must match a RegEx pattern.");
    (Key.ENUM, _badge_enum,
     "This value must be equal to one of the enumerated values.");
    (Key.CONTENT_SCHEMA, _badge_content_schema,
     "This media content has a defined schema.") ].

(** The anchor a badge links to. *)
Definition anchor (g : Generator) (key : string) : string :=
  "#" ++ _make_tag g [key].

(** A group of [dependentRequired] whose dependents are strings, as the
    schema holds it. *)
Definition group_item (group : string * list string) : string * pyval :=
  (fst group, PList (map PStr (snd group))).

(** The block of a dependency group when no name is a link. *)
Definition dependency_block (group : string * list string) : element :=
  EBlockContainer
    [ (None, EText ("If " ++ ("`" ++ fst group ++ "`") ++ " is present:"));
      (None, EUnorderedList
               (map (fun name => EText ("`" ++ name ++ "`")) (snd group))) ]
    None [].

(** Groups in the order of their dependency. *)
Fixpoint insert_group (x : string * list string)
    (l : list (string * list string)) : list (string * list string) :=
  match l with
  | [] => [x]
  | y :: r =>
      if String.leb (fst x) (fst y) then x :: l else y :: insert_group x r
  end.

Definition sort_groups (l : list (string * list string))
    : list (string * list string) :=
  fold_right insert_group [] l.

(** The boolean rules besides [deprecated]: keyword, rule and tooltip as
    a function of the boolean. *)
Definition boolean_rules
    : list (string * (Generator -> result (option dict)) * (bool -> string)) :=
  [ (Key.READ_ONLY, _badge_read_only,
     fun b : bool => "This value is " ++ (if b then "" else "not ") ++ "read-only.");
    (Key.WRITE_ONLY, _badge_write_only,
     fun b : bool => "This value is " ++ (if b then "" else "not ") ++ "write-only.");
    (Key.UNIQUE_ITEMS, _badge_unique_items,
     fun b : bool => if b then "All array elements must be unique."
              else "Array elements do not need to be unique.") ].

(** The presence rules that have a tab rule, with it. *)
Definition tabbed_rules
    : list (string * (Generator -> result (option dict))
            * (Generator -> result (option element))) :=
  [ (Key.CONST, _badge_const, tab_const);
    (Key.PATTERN, _badge_pattern, _tab_pattern);
    (Key.ENUM, _badge_enum, _tab_enum) ].

(** The anchor name of a tab item. *)
Definition tab_name (e : element) : option string :=
  match e with
  | ETabItem _ _ name _ _ _ => Some name
  | _ => None
  end.

(** What one key contributes to the badge strip: nothing when the
    instance has no attribute named after it or its rule returns [None]
    (or an empty dict), else the badge of its rule. *)
Definition key_badges (g : Generator) (key : string) : result (list dict) :=
  match call_badge_method g ("_badge_" ++ camel_to_snake key) with
  | None => Return []
  | Some call =>
      badge_item <- call ;;
      Return match badge_item with
             | Some item => if truthy (PDict item) then [item] else []
             | None => []
             end
  end.

(** The code block of a value whose code is [code]. *)
Definition code_block_of (g : Generator) (code : string) : element :=
  ECodeBlock (str_strip code) (_value_code_language g).

(** A dict as Python has it: no key twice. *)
Definition dict_wf (d : dict) : Prop := NoDup (map fst d).

End Methods.

(* ------------------------------------------------------------------ *)
(** ** Sample inputs *)

(** A generator built with the defaults of every parameter, no registry
    among them. *)
Definition fresh_generator : Generator :=
  __init__ (lib := sample_collaborators)
    (default_args (lib := sample_collaborators)).

(** [fresh_generator] with a schema bound to it, at the path [$] under
    the tag prefix [ex]. *)
Definition bound (schema : dict) : Generator :=
  bind_call fresh_generator schema "$" "ex" "$".

Definition schema_empty_ref : dict := [("$ref", PStr "")].
Definition schema_ref : dict := [("$ref", PStr "urn:x")].
Definition schema_maximum : dict := [("maximum", PInt 5)].
Definition schema_max_length : dict := [("maxLength", PInt 3)].
Definition schema_counts : dict :=
  [ ("required", PList [PStr "a"; PStr "b"]);
    ("dependentRequired", PDict [("a", PList [PStr "b"; PStr "c"])]);
    ("prefixItems", PList [PDict []; PDict []]) ].
Definition schema_plain : dict := [("x-note", PStr "kept for later")].
Definition schema_default : dict := [("default", PInt 1)].
Definition schema_booleans (b : bool) : dict :=
  [ ("deprecated", PBool b); ("unevaluatedItems", PBool b);
    ("unevaluatedProperties", PBool b) ].
Definition schema_required : dict :=
  [ ("required", PList [PStr "b"; PStr "a"]);
    ("properties", PDict [("a", PDict [])]) ].
Definition schema_dependent : dict :=
  [ ("dependentRequired",
     PDict [("y", PList [PStr "q"; PStr "p"]); ("x", PList [PStr "p"])]);
    ("properties", PDict [("p", PDict [])]) ].
Definition schema_empty_texts : dict :=
  [("summary", PStr ""); ("description", PStr "")].
Definition schema_type : dict := [("type", PStr "string")].

(** A registry that knows one schema, and an empty one. *)
Definition sample_registry : Registry :=
  {| registry_bool := true;
     registry_contents := fun ref_id =>
       match ref_id with
       | PStr s =>
           if String.eqb s "urn:x"
           then Return (PDict [("$id", PStr "urn:x"); ("title", PStr "Person")])
           else Raise KeyError
       | _ => Raise KeyError
       end |}.

(** A registry that resolves every reference to the schema [d]. *)
Definition constant_registry (d : dict) : Registry :=
  {| registry_bool := true;
     registry_contents := fun _ => Return (PDict d) |}.

Definition empty_registry : Registry :=
  {| registry_bool := false;
     registry_contents := fun _ => Raise KeyError |}.

(** The default arguments with another registry and another
    [value_code_gen]. *)
Definition sample_args (registry : option Registry)
    (value_code_gen : pyval -> pyval) : InitArgs :=
  let d := default_args (lib := sample_collaborators) in
  {| arg_registry := registry;
     arg_key_title_gen := arg_key_title_gen d;
     arg_value_code_gen := value_code_gen;
     arg_value_code_language := arg_value_code_language d;
     arg_class_prefix := arg_class_prefix d;
     arg_ref_tag_prefix := arg_ref_tag_prefix d;
     arg_ref_tag_gen := arg_ref_tag_gen d;
     arg_ref_name_gen := arg_ref_name_gen d;
     arg_keyword_title_prefix := arg_keyword_title_prefix d;
     arg_keyword_title_suffix := arg_keyword_title_suffix d;
     arg_keyword_description_prefix := arg_keyword_description_prefix d;
     arg_keyword_description_suffix := arg_keyword_description_suffix d;
     arg_badge := arg_badge d;
     arg_badge_permissive := Some [];
     arg_badge_restrictive := arg_badge_restrictive d;
     arg_badges := arg_badges d;
     arg_badges_header := arg_badges_header d;
     arg_badges_inline := arg_badges_inline d |}.

(** A code generator that writes scalars as their text, padded. *)
Definition padded_code (v : pyval) : pyval :=
  PStr ("  " ++ py_str (lib := sample_collaborators) v ++ " ").

(** A generator with [sample_args], bound to a schema. *)
Definition bound_with (registry : option Registry)
    (value_code_gen : pyval -> pyval) (schema : dict) : Generator :=
  bind_call (__init__ (lib := sample_collaborators)
               (sample_args registry value_code_gen))
    schema "$" "ex" "$".

Definition schema_scalars : dict :=
  [ ("minimum", PInt 0); ("minContains", PInt 2);
    ("minimum_title", PStr "Not below zero.");
    ("format", PDict []) ].
Definition schema_type_list : dict :=
  [("type", PList [PStr "string"; PStr "null"])].
Definition schema_const_null : dict := [("const", PNone)].
Definition schema_unevaluated : dict :=
  [ ("unevaluatedItems", PDict [("type", PStr "string")]);
    ("unevaluatedProperties", PDict [("type", PStr "string")]) ].
Definition schema_const_texts : dict :=
  [ ("const", PBool false); ("const_title", PStr "Always off.");
    ("const_description", PStr "Kept for compatibility.") ].
Definition schema_const_value : dict :=
  [("const", PInt 7); ("const_title", PStr "Lucky.")].
Definition schema_enum : dict :=
  [ ("enum", PList [PInt 1; PInt 2; PInt 3]);
    ("enum_description", PList [PStr "first"]) ].
Definition schema_groups : list (string * list string) :=
  [("y", ["q"; "p"]); ("x", ["p"])].
Definition schema_dependent_plain : dict :=
  [("dependentRequired", PDict (map group_item schema_groups))].

(* ------------------------------------------------------------------ *)
(** ** Properties *)

Section Properties.

Context {lib : Collaborators}.


(** *** The result monad *)

Lemma raises_bind {A B} (m : result A) (k : A -> result B) :
  raises m -> raises (bind m k).
Proof.
  intros [e ->]. exists e. reflexivity.
Qed.

Lemma raises_bind_all {A B} (m : result A) (k : A -> result B) :
  (forall a, raises (k a)) -> raises (bind m k).
Proof.
  intros Hk. destruct m as [a | e]; simpl.
  - apply Hk.
  - exists e. reflexivity.
Qed.

Lemma returns_or_raises {A} (m : result A) : returns m \/ raises m.
Proof.
  destruct m as [a | e]; [left; exists a | right; exists e]; reflexivity.
Qed.

(** *** Dictionaries *)

Lemma dict_has_true_get (k : string) (d : dict) :
  dict_has k d = true -> exists v, dict_get k d = Some v.
Proof.
  unfold dict_has. destruct (dict_get k d) as [v |]; [eauto | discriminate].
Qed.

Lemma dict_get_some_has (k : string) (d : dict) (v : pyval) :
  dict_get k d = Some v -> dict_has k d = true.
Proof.
  unfold dict_has. intros ->. reflexivity.
Qed.

Lemma dict_get_set (k k' : string) (v : pyval) (d : dict) :
  dict_get k (dict_set k' v d)
  = if String.eqb k k' then Some v else dict_get k d.
Proof.
  induction d as [| [k0 v0] d IH]; simpl.
  - reflexivity.
  - destruct (String.eqb k' k0) eqn:E1; simpl.
    + apply String.eqb_eq in E1. subst k0.
      destruct (String.eqb k k'); reflexivity.
    + rewrite IH. destruct (String.eqb k k0) eqn:E2; [| reflexivity].
      apply String.eqb_eq in E2. subst k0.
      rewrite String.eqb_sym, E1. reflexivity.
Qed.

(** In [a | b] a key reads what [b] binds it to, else what [a] does. *)
Lemma dict_get_or_absent (k : string) (a b : dict) :
  dict_get k b = None -> dict_get k (dict_or a b) = dict_get k a.
Proof.
  unfold dict_or. revert a.
  induction b as [| [k0 v0] b IH]; intros a Hb; simpl in *.
  - reflexivity.
  - destruct (String.eqb k k0) eqn:E; [discriminate |].
    rewrite IH by assumption. rewrite dict_get_set, E. reflexivity.
Qed.

Lemma dict_get_or_single (k : string) (v : pyval) (a : dict) :
  dict_get k (dict_or a [(k, v)]) = Some v.
Proof.
  unfold dict_or. simpl. rewrite dict_get_set, String.eqb_refl. reflexivity.
Qed.

(** *** Sorting *)

Definition str_le (a b : string) : Prop := String.leb a b = true.

Lemma str_leb_total (a b : string) :
  String.leb a b = false -> String.leb b a = true.
Proof.
  unfold String.leb. rewrite (String.compare_antisym a b).
  destruct (String.compare b a); simpl; congruence.
Qed.

Lemma insert_str_perm (x : string) (l : list string) :
  Permutation (x :: l) (insert_str x l).
Proof.
  induction l as [| y l IH]; simpl.
  - apply Permutation_refl.
  - destruct (String.leb x y).
    + apply Permutation_refl.
    + eapply perm_trans; [apply perm_swap | apply perm_skip, IH].
Qed.

Lemma insert_str_sorted (x : string) (l : list string) :
  Sorted str_le l -> Sorted str_le (insert_str x l).
Proof.
  induction l as [| y l IH]; simpl; intros Hs.
  - repeat constructor.
  - destruct (String.leb x y) eqn:E.
    + constructor; [assumption | constructor; exact E].
    + apply str_leb_total in E. inversion Hs as [| ? ? Hs' Hhd]; subst.
      constructor; [apply IH; assumption |].
      destruct l as [| z l]; simpl.
      * constructor; exact E.
      * destruct (String.leb x z); constructor;
          [exact E | inversion Hhd; assumption].
Qed.

(** [sort_strs] orders its argument and keeps its elements. *)
Lemma sort_strs_sorted (l : list string) :
  Sorted str_le (sort_strs l) /\ Permutation l (sort_strs l).
Proof.
  induction l as [| x l [Hs Hp]]; simpl.
  - split; constructor.
  - split.
    + apply insert_str_sorted, Hs.
    + eapply perm_trans; [apply perm_skip, Hp | apply insert_str_perm].
Qed.

(** *** Attribute and name lookups that fail *)

(** Neither [__init__] nor the class binds [_badges_header_classes] or
    [_badges_inline_classes], so [_make_badges] ends in an
    [AttributeError] on every path that reaches the lookup. *)
Lemma make_badges_raises (g : Generator) (items : list dict)
    (inline : bool) :
  raises (_make_badges g items inline).
Proof.
  unfold _make_badges.
  destruct (dict_has "service" _ || dict_has "items" _)%bool.
  - eexists. reflexivity.
  - destruct inline; eexists; reflexivity.
Qed.

Lemma generate_badges_raises (g : Generator) (instance_jsonpath : string) :
  raises (_generate_badges g instance_jsonpath).
Proof.
  unfold _generate_badges.
  apply raises_bind_all. intros first.
  apply raises_bind_all. intros badge_items.
  apply make_badges_raises.
Qed.

Lemma tab_jsonschema_raises (g : Generator) :
  _tab_jsonschema g = Raise (NameError "schema").
Proof. reflexivity. Qed.

Lemma generate_tabs_raises (g : Generator) : raises (_generate_tabs g).
Proof.
  unfold _generate_tabs.
  apply raises_bind_all. intros tab_items.
  rewrite tab_jsonschema_raises. eexists. reflexivity.
Qed.

Lemma generate_schema_raises (g : Generator) (schema : dict)
    (schema_jsonpath schema_tag_prefix instance_jsonpath : string) :
  raises (fst (generate_schema g schema schema_jsonpath schema_tag_prefix
                 instance_jsonpath)).
Proof.
  unfold generate_schema. simpl fst.
  apply raises_bind, generate_badges_raises.
Qed.

(** The class has no method [tab_x] but [tab_const]: for any other
    suffix the lookup of [_generate_tabs] raises [AttributeError]. *)
Lemma call_tab_method_missing (g : Generator) (suffix : string) :
  String.eqb suffix "const" = false ->
  call_tab_method g ("tab_" ++ suffix)
  = Raise (AttributeError ("tab_" ++ suffix)).
Proof.
  intros H. unfold call_tab_method. cbn. rewrite H. reflexivity.
Qed.

(** On an instance, [_badge_default] is the dict [__init__] stored:
    calling it raises [TypeError]. *)
Lemma call_badge_default_raises (g : Generator) :
  call_badge_method g "_badge_default" = Some (Raise TypeError).
Proof. reflexivity. Qed.

(** *** Claims *)

(** C1.  The tab set is never produced.  [_generate_tabs] looks the tab
    rules up under [tab_<keyword>], a name only [tab_const] has, and it
    ends with [_tab_jsonschema], which reads names that do not exist:
    for every generator state and every schema bound to it,
    [_generate_tabs] raises, where the claim has it return one tab per
    populated keyword and the raw-schema tab. *)
Theorem generate_tabs_never_returns (g : Generator) (schema : dict)
    (schema_jsonpath schema_tag_prefix instance_jsonpath : string) :
  raises (_generate_tabs g) /\
  raises (_generate_tabs (bind_call g schema schema_jsonpath
                            schema_tag_prefix instance_jsonpath)).
Proof.
  split; apply generate_tabs_raises.
Qed.

(** C2, as amended.  When the value of [$ref] is truthy and the
    generator has no registry, the rule [_badge_ref] raises the
    [ValueError] of the source and yields no badge. *)
Theorem badge_ref_without_registry (g : Generator) :
  truthy (dict_get_none Key.REF (_schema g)) = true ->
  _registry g = None ->
  _badge_ref g = Raise (ValueError "Schema has ref but no registry given.").
Proof.
  intros Href Hreg. unfold _badge_ref.
  rewrite Href, Hreg. reflexivity.
Qed.

(** C3.  The rule named after [maximum] tests and reads [maxLength]:
    whenever [maxLength] is absent it yields no badge, whether or not
    the schema has [maximum]. *)
Theorem badge_maximum_needs_max_length (g : Generator) :
  dict_has Key.MAX_LENGTH (_schema g) = false ->
  _badge_maximum g = Return None.
Proof.
  intros H. unfold _badge_maximum, keyword_badge, _make_keyword_badge_kwargs.
  rewrite H. reflexivity.
Qed.

(** What [_badge_maximum] yields when [maxLength] is an integer: the
    badge of the key [maxLength], with the sentence of [maximum]. *)
Lemma badge_maximum_on_max_length (g : Generator) (n : Z) :
  dict_get Key.MAX_LENGTH (_schema g) = Some (PInt n) ->
  _badge_maximum g
  = (kw <- _make_badge_kwargs g Key.MAX_LENGTH (PStr (str_of_Z n)) "" None
             (dict_get_or (_get_title_key g Key.MAX_LENGTH)
                (PStr ("This value must be smaller than or equal to "
                       ++ str_of_Z n ++ "."))
                (_schema g))
             None ;;
     Return (Some kw)).
Proof.
  intros H. unfold _badge_maximum, keyword_badge, _make_keyword_badge_kwargs.
  unfold dict_has, dict_item. rewrite H. reflexivity.
Qed.

(** A rule whose [message] is [lambda value: str(len(value))] calls it
    on [title], a function object: [len] raises [TypeError]. *)
Lemma count_message_raises (g : Generator) (key : string)
    (f : pyval -> result string) (link : link_arg) :
  dict_has key (_schema g) = true ->
  _make_keyword_badge_kwargs g key
    (MsgFun (fun value => n <- py_len value ;; Return (PStr (str_of_Z n))))
    None false message_complex_default (TitleFun f) link
  = Raise TypeError.
Proof.
  intros H. unfold _make_keyword_badge_kwargs. rewrite H.
  destruct (dict_has_true_get _ _ H) as [v Hv].
  unfold dict_item. rewrite Hv. reflexivity.
Qed.

(** C4.  The three count badges cannot be produced: whenever the
    keyword is in the schema, the rule raises [TypeError], because the
    count is taken of the tooltip function instead of the value. *)
Theorem count_badges_raise (g : Generator) :
  (dict_has Key.REQUIRED (_schema g) = true ->
   _badge_required g = Raise TypeError) /\
  (dict_has Key.DEPENDENT_REQUIRED (_schema g) = true ->
   _badge_dependent_required g = Raise TypeError) /\
  (dict_has Key.PREFIX_ITEMS (_schema g) = true ->
   _badge_prefix_items g = Raise TypeError).
Proof.
  repeat split; intros H.
  - unfold _badge_required. cbv zeta. apply count_message_raises, H.
  - unfold _badge_dependent_required. cbv zeta.
    apply count_message_raises, H.
  - unfold _badge_prefix_items. cbv zeta. apply count_message_raises, H.
Qed.

(** The keywords the generator reads from a schema. *)
Definition recognized_keys : list string :=
  (badge_keys ++ tab_keys ++ [Key.SUMMARY; Key.DESCRIPTION])%list.

Lemma dict_has_false_get (k : string) (d : dict) :
  dict_has k d = false -> dict_get k d = None.
Proof.
  unfold dict_has. destruct (dict_get k d); [discriminate | reflexivity].
Qed.

Ltac in_list := repeat first [left; reflexivity | right].

Ltac key_absent H :=
  cbv zeta; unfold keyword_badge, _make_keyword_badge_kwargs;
  match goal with
  | |- context [dict_has ?k ?d] =>
      rewrite (H k) by (unfold recognized_keys; simpl; in_list)
  end;
  reflexivity.

(** On a schema without the recognized keywords every badge rule of the
    class yields no badge. *)
Lemma badge_rules_silent (g : Generator) :
  (forall key, In key recognized_keys -> dict_has key (_schema g) = false) ->
  forall name rule, In (name, rule) badge_methods -> rule g = Return None.
Proof.
  intros H name rule Hin.
  assert (Href : _badge_ref g = Return None).
  { unfold _badge_ref, dict_get_none, dict_get_or. cbv zeta.
    rewrite (dict_has_false_get Key.REF (_schema g))
      by (apply H; unfold recognized_keys; simpl; in_list).
    reflexivity. }
  unfold badge_methods in Hin. simpl in Hin.
  repeat (destruct Hin as [Heq | Hin];
          [ injection Heq as _ <-;
            first [ exact Href
                  | match goal with
                    | |- ?r _ g = _ => unfold r
                    | |- ?r g = _ => unfold r
                    end; key_absent H ]
          | ]).
  contradiction.
Qed.

(** C5.  On a schema with none of the recognized keywords the badge
    rules yield no badge, and no summary and no description are built,
    as the claim has it; but [generate_schema] returns no body: it
    raises. *)
Theorem generate_schema_plain_raises (g : Generator) (schema : dict)
    (schema_jsonpath schema_tag_prefix instance_jsonpath : string) :
  (forall key, In key recognized_keys -> dict_has key schema = false) ->
  let self := bind_call g schema schema_jsonpath schema_tag_prefix
                instance_jsonpath in
  (forall name rule, In (name, rule) badge_methods ->
                     rule self = Return None) /\
  _generate_summary self = None /\
  _generate_description self = None /\
  raises (fst (generate_schema g schema schema_jsonpath schema_tag_prefix
                 instance_jsonpath)).
Proof.
  intros H self. repeat split.
  - apply badge_rules_silent. exact H.
  - unfold _generate_summary, dict_get_none, dict_get_or. cbv zeta.
    rewrite (dict_has_false_get Key.SUMMARY (_schema self))
      by (apply H; unfold recognized_keys; simpl; in_list).
    reflexivity.
  - unfold _generate_description, dict_get_none, dict_get_or. cbv zeta.
    rewrite (dict_has_false_get Key.DESCRIPTION (_schema self))
      by (apply H; unfold recognized_keys; simpl; in_list).
    reflexivity.
  - apply generate_schema_raises.
Qed.

(** The lowercase text of a boolean: [str(value).lower()]. *)
Definition bool_text (b : bool) : string :=
  if b then "true" else "false".

Lemma str_lower_bool (b : bool) : str_lower (py_str (PBool b)) = bool_text b.
Proof. destruct b; reflexivity. Qed.

(** C7.  [_tab_required] returns no tab: the tab item it builds is
    dropped, and every call that does not raise returns [None]. *)
Theorem tab_required_returns_none (g : Generator) :
  _tab_required g = Return None \/ raises (_tab_required g).
Proof.
  unfold _tab_required.
  destruct (_tab_required_built g) as [built | e]; simpl.
  - left. reflexivity.
  - right. exists e. reflexivity.
Qed.

(** C8, as amended.  A summary block is built exactly when the value
    under [summary] is truthy, a description block exactly when the
    value under [description] is truthy. *)
Theorem summary_description_iff_truthy (g : Generator) :
  ((exists e, _generate_summary g = Some e) <->
   truthy (dict_get_none Key.SUMMARY (_schema g)) = true) /\
  ((exists e, _generate_description g = Some e) <->
   truthy (dict_get_none Key.DESCRIPTION (_schema g)) = true).
Proof.
  unfold _generate_summary, _generate_description. cbv zeta.
  split.
  - destruct (truthy (dict_get_none Key.SUMMARY (_schema g))); split.
    + reflexivity.
    + eauto.
    + intros [e He]. discriminate.
    + discriminate.
  - destruct (truthy (dict_get_none Key.DESCRIPTION (_schema g))); split.
    + reflexivity.
    + eauto.
    + intros [e He]. discriminate.
    + discriminate.
Qed.

Lemma bind_call_same_configuration (g1 g2 : Generator) (schema : dict)
    (schema_jsonpath schema_tag_prefix instance_jsonpath : string) :
  same_configuration g1 g2 ->
  bind_call g1 schema schema_jsonpath schema_tag_prefix instance_jsonpath
  = bind_call g2 schema schema_jsonpath schema_tag_prefix instance_jsonpath.
Proof.
  unfold same_configuration, bind_call.
  intros (H1 & H2 & H3 & H4 & H5 & H6 & H7 & H8 & H9 & H10 & H11 & H12
          & H13 & H14 & H15 & H16 & H17).
  rewrite H1, H2, H3, H4, H5, H6, H7, H8, H9, H10, H11, H12, H13, H14,
    H15, H16, H17.
  reflexivity.
Qed.

(** C9, as amended.  The outcome of [generate_schema] is a function of
    its arguments and of the configuration: two generators with the
    same configuration give the same outcome, whatever earlier calls
    left in them.  The call keeps the configuration and leaves its four
    arguments bound on the generator. *)
Theorem generate_schema_function_of_configuration (g1 g2 : Generator)
    (schema : dict)
    (schema_jsonpath schema_tag_prefix instance_jsonpath : string) :
  same_configuration g1 g2 ->
  let call g := generate_schema g schema schema_jsonpath schema_tag_prefix
                  instance_jsonpath in
  call g1 = call g2 /\
  same_configuration g1 (snd (call g1)) /\
  _schema (snd (call g1)) = schema /\
  _schema_jsonpath (snd (call g1)) = schema_jsonpath /\
  _schema_tag_prefix (snd (call g1)) = schema_tag_prefix /\
  _instance_jsonpath (snd (call g1)) = instance_jsonpath.
Proof.
  intros H call. subst call. cbv beta.
  split.
  - unfold generate_schema. cbv zeta.
    rewrite (bind_call_same_configuration schema schema_jsonpath
               schema_tag_prefix instance_jsonpath H).
    reflexivity.
  - unfold generate_schema, same_configuration. simpl.
    repeat split; reflexivity.
Qed.

(** C10.  When [$ref] is in the schema with a falsy value, [_badge_ref]
    yields no badge and does not raise, with or without a registry. *)
Theorem badge_ref_falsy_no_badge (g : Generator) (ref_id : pyval) :
  dict_get Key.REF (_schema g) = Some ref_id ->
  truthy ref_id = false ->
  _badge_ref g = Return None.
Proof.
  intros Hget Hfalsy.
  unfold _badge_ref, dict_get_none, dict_get_or. cbv zeta.
  rewrite Hget, Hfalsy. reflexivity.
Qed.

(* ------------------------------------------------------------------ *)
(** *** Further properties of the badge rules *)

Lemma bind_return_inv {A B} (m : result A) (k : A -> result B) (b : B) :
  bind m k = Return b -> exists a, m = Return a /\ k a = Return b.
Proof.
  destruct m as [a | e]; simpl; [eauto | discriminate].
Qed.

Lemma dict_or_nil (a : dict) : dict_or a [] = a.
Proof. reflexivity. Qed.

(** [_make_badge_kwargs] for a string message and no label, under a
    well-typed entry of [_badge_default]. *)
Lemma make_badge_kwargs_plain (g : Generator) (key message : string)
    (link : option string) (title : pyval) (config : option dict)
    (per_key : dict) :
  per_key_entry g key per_key ->
  _make_badge_kwargs g key (PStr message) "" link title config
  = Return (dict_or (dict_or (base_kwargs g key message link title)
                       (match config with Some c => c | None => [] end))
              per_key).
Proof.
  intros H. unfold _make_badge_kwargs. rewrite H. reflexivity.
Qed.

Lemma keyword_kwargs_boolean (g : Generator) (key : string) (b tip : bool)
    (mc : complex_arg) (f : pyval -> result string) (sentence : string)
    (link : link_arg) (per_key : dict) :
  dict_get key (_schema g) = Some (PBool b) ->
  f (PBool b) = Return sentence ->
  per_key_entry g key per_key ->
  _make_keyword_badge_kwargs g key MsgNone None tip mc (TitleFun f) link
  = Return (Some (dict_or
                    (dict_or (base_kwargs g key (bool_text b)
                                (link_value link (PBool b))
                                (tooltip g key sentence))
                       (if Bool.eqb b tip then _badge_permissive g
                        else _badge_restrictive g))
                    per_key)).
Proof.
  intros Hget Hf Hper. unfold _make_keyword_badge_kwargs.
  unfold dict_has, dict_item. rewrite Hget.
  destruct b; simpl; rewrite Hf; simpl;
    erewrite make_badge_kwargs_plain by exact Hper; reflexivity.
Qed.

(** C6, as amended.  The descriptor of the boolean badges.  For a
    boolean [deprecated] the descriptor is the base descriptor, whose
    message is the lowercase text of the boolean, with the restrictive
    style laid over it for [True] and the permissive style for [False],
    and the keyword's entry of [_badge_default] laid over both; for a
    boolean [unevaluatedItems] or [unevaluatedProperties] the styles are
    the other way round.  What the per-keyword entry binds therefore
    takes precedence over the style. *)
Theorem boolean_badge_descriptor (g : Generator) (b : bool)
    (per_key : dict) :
  (dict_get Key.DEPRECATED (_schema g) = Some (PBool b) ->
   per_key_entry g Key.DEPRECATED per_key ->
   _badge_deprecated g
   = Return (Some (dict_or
                     (dict_or
                        (base_kwargs g Key.DEPRECATED (bool_text b) None
                           (tooltip g Key.DEPRECATED
                              ("This value is " ++ (if b then "" else "not ")
                               ++ "deprecated.")))
                        (if b then _badge_restrictive g
                         else _badge_permissive g))
                     per_key))) /\
  (dict_get Key.UNEVALUATED_ITEMS (_schema g) = Some (PBool b) ->
   per_key_entry g Key.UNEVALUATED_ITEMS per_key ->
   _badge_unevaluated_items g
   = Return (Some (dict_or
                     (dict_or
                        (base_kwargs g Key.UNEVALUATED_ITEMS (bool_text b)
                           None
                           (tooltip g Key.UNEVALUATED_ITEMS
                              ("Array elements other than those defined in `items`, `prefixItems`, or `contains` are "
                               ++ (if b then "" else "not ") ++ "allowed.")))
                        (if b then _badge_permissive g
                         else _badge_restrictive g))
                     per_key))) /\
  (dict_get Key.UNEVALUATED_PROPERTIES (_schema g) = Some (PBool b) ->
   per_key_entry g Key.UNEVALUATED_PROPERTIES per_key ->
   _badge_unevaluated_properties g
   = Return (Some (dict_or
                     (dict_or
                        (base_kwargs g Key.UNEVALUATED_PROPERTIES
                           (bool_text b) None
                           (tooltip g Key.UNEVALUATED_PROPERTIES
                              ("Unevaluated object properties are "
                               ++ (if b then "" else "not ") ++ "allowed.")))
                        (if b then _badge_permissive g
                         else _badge_restrictive g))
                     per_key))).
Proof.
  repeat split; intros Hget Hper.
  - unfold _badge_deprecated, keyword_badge.
    destruct b;
      [ eapply keyword_kwargs_boolean
          with (sentence := "This value is deprecated.")
      | eapply keyword_kwargs_boolean
          with (sentence := "This value is not deprecated.") ];
      first [exact Hget | exact Hper | reflexivity].
  - unfold _badge_unevaluated_items. cbv zeta.
    destruct b;
      [ eapply keyword_kwargs_boolean
          with (sentence := "Array elements other than those defined in `items`, `prefixItems`, or `contains` are allowed.")
      | eapply keyword_kwargs_boolean
          with (sentence := "Array elements other than those defined in `items`, `prefixItems`, or `contains` are not allowed.") ];
      first [exact Hget | exact Hper | reflexivity].
  - unfold _badge_unevaluated_properties. cbv zeta.
    destruct b;
      [ eapply keyword_kwargs_boolean
          with (sentence := "Unevaluated object properties are allowed.")
      | eapply keyword_kwargs_boolean
          with (sentence := "Unevaluated object properties are not allowed.") ];
      first [exact Hget | exact Hper | reflexivity].
Qed.

Lemma keyword_kwargs_absent (g : Generator) (key : string)
    (message : message_arg) (value : option pyval) (tip : bool)
    (mc : complex_arg) (title : title_arg) (link : link_arg) :
  dict_has key (_schema g) = false ->
  _make_keyword_badge_kwargs g key message value tip mc title link
  = Return None.
Proof.
  intros H. unfold _make_keyword_badge_kwargs. rewrite H. reflexivity.
Qed.

(** X1.  A keyword rule yields no badge exactly when its keyword is not
    in the schema: with the keyword present, whatever its value, the rule
    either yields a badge or raises. *)
Theorem keyword_rule_none_iff_absent (g : Generator) (key : string)
    (message : message_arg) (value : option pyval) (tip : bool)
    (mc : complex_arg) (title : title_arg) (link : link_arg) :
  _make_keyword_badge_kwargs g key message value tip mc title link
  = Return None
  <-> dict_has key (_schema g) = false.
Proof.
  split; [| apply keyword_kwargs_absent].
  unfold _make_keyword_badge_kwargs.
  destruct (dict_has key (_schema g)); [| reflexivity].
  simpl. intros H.
  repeat match type of H with
         | bind _ _ = Return _ =>
             apply bind_return_inv in H; destruct H as (? & _ & H)
         | (let '(_, _) := ?p in _) = _ => destruct p
         end.
  discriminate.
Qed.

Lemma keyword_kwargs_scalar (g : Generator) (key : string) (value : pyval)
    (f : pyval -> result string) (sentence : string) (link : link_arg)
    (per_key : dict) :
  dict_get key (_schema g) = Some value ->
  is_scalar value = true ->
  f value = Return sentence ->
  per_key_entry g key per_key ->
  _make_keyword_badge_kwargs g key MsgNone None false
    message_complex_default (TitleFun f) link
  = Return (Some (dict_or (base_kwargs g key (py_str value)
                             (link_value link value)
                             (tooltip g key sentence))
                    per_key)).
Proof.
  intros Hget Hscalar Hf Hper. unfold _make_keyword_badge_kwargs.
  unfold dict_has, dict_item. rewrite Hget. simpl.
  destruct value; try discriminate; simpl; rewrite Hf; simpl;
    erewrite make_badge_kwargs_plain by exact Hper; reflexivity.
Qed.

(** X2.  The scalar badges.  For each rule of [scalar_rules], when the
    keyword holds a string or a number (zero and the empty string
    included) the badge is the base descriptor with the text of the value
    as message, the companion title of the schema or else the sentence of
    the rule as tooltip, a link only for [minContains] and [maxContains],
    no style, and the entry of [_badge_default] laid over it. *)
Theorem scalar_badge_descriptor (g : Generator) (key : string)
    (rule : Generator -> result (option dict)) (sentence : string -> string)
    (linked : bool) (value : pyval) (per_key : dict) :
  In (key, rule, sentence, linked) scalar_rules ->
  dict_get key (_schema g) = Some value ->
  is_scalar value = true ->
  per_key_entry g key per_key ->
  rule g
  = Return (Some (dict_or
                    (base_kwargs g key (py_str value)
                       (if linked then Some (anchor g key) else None)
                       (tooltip g key (sentence (py_str value))))
                    per_key)).
Proof.
  intros Hin Hget Hscalar Hper.
  unfold scalar_rules in Hin. simpl in Hin.
  repeat (destruct Hin as [Heq | Hin];
          [ injection Heq as <- <- <- <-;
            match goal with
            | |- ?r _ g = _ => unfold r, keyword_badge; cbv zeta
            end;
            erewrite keyword_kwargs_scalar; try eassumption;
            [ reflexivity
            | try reflexivity; destruct value; try discriminate; reflexivity ]
          | ]).
  contradiction.
Qed.

Lemma keyword_kwargs_object (g : Generator) (key : string) (value : pyval)
    (title : title_arg) (link : link_arg) :
  dict_get key (_schema g) = Some value ->
  (value = PNone \/ exists d, value = PDict d) ->
  _make_keyword_badge_kwargs g key MsgNone None false
    message_complex_default title link
  = Raise TypeError.
Proof.
  intros Hget Hval. unfold _make_keyword_badge_kwargs.
  unfold dict_has, dict_item. rewrite Hget. simpl.
  destruct Hval as [-> | [d ->]]; reflexivity.
Qed.

(** X3.  A scalar rule whose keyword holds [null] or an object raises
    [TypeError]: the default [message_complex] takes [len] of the value,
    which fails for [None] and gives an integer for a dict, and the
    integer is then called as a function. *)
Theorem scalar_badge_object_raises (g : Generator) (key : string)
    (rule : Generator -> result (option dict)) (sentence : string -> string)
    (linked : bool) (value : pyval) :
  In (key, rule, sentence, linked) scalar_rules ->
  dict_get key (_schema g) = Some value ->
  (value = PNone \/ exists d, value = PDict d) ->
  rule g = Raise TypeError.
Proof.
  intros Hin Hget Hval.
  unfold scalar_rules in Hin. simpl in Hin.
  repeat (destruct Hin as [Heq | Hin];
          [ injection Heq as <- <- <- <-;
            match goal with
            | |- ?r _ g = _ => unfold r, keyword_badge; cbv zeta
            end;
            apply keyword_kwargs_object with (value := value); assumption
          | ]).
  contradiction.
Qed.

(** X4.  The badge of a list-valued [type]: the message joins the names
    with [" | "] and the tooltip lists them with [", "]; a list that holds
    anything but strings raises [TypeError]. *)
Theorem type_list_badge (g : Generator) (l : list pyval) (per_key : dict) :
  dict_get Key.TYPE (_schema g) = Some (PList l) ->
  per_key_entry g Key.TYPE per_key ->
  _badge_type g
  = match all_strs l with
    | Some names =>
        Return (Some (dict_or
                        (base_kwargs g Key.TYPE (str_join " | " names) None
                           (tooltip g Key.TYPE
                              ("This value must have one of the following data types: "
                               ++ str_join ", " names ++ ".")))
                        per_key))
    | None => Raise TypeError
    end.
Proof.
  intros Hget Hper.
  unfold _badge_type, keyword_badge, _make_keyword_badge_kwargs.
  unfold dict_has, dict_item. rewrite Hget. simpl.
  unfold py_join. destruct (all_strs l) as [names |]; simpl.
  - erewrite make_badge_kwargs_plain by exact Hper. reflexivity.
  - reflexivity.
Qed.

Lemma keyword_kwargs_presence (g : Generator) (key sentence link : string)
    (per_key : dict) :
  dict_has key (_schema g) = true ->
  per_key_entry g key per_key ->
  _make_keyword_badge_kwargs g key MsgNone (Some (PBool true)) false
    message_complex_default (TitleStr sentence) (LinkStr link)
  = Return (Some (dict_or
                    (dict_or (base_kwargs g key "true" (Some link)
                                (tooltip g key sentence))
                       (_badge_restrictive g))
                    per_key)).
Proof.
  intros Hhas Hper. unfold _make_keyword_badge_kwargs.
  rewrite Hhas. simpl.
  erewrite make_badge_kwargs_plain by exact Hper. reflexivity.
Qed.

(** X5.  The presence badges ([const], [pattern], [enum],
    [contentSchema]).  When the keyword is in the schema, whatever it
    holds ([null] or [false] included), the badge has the message [true],
    the restrictive style, a link to the anchor of the keyword, and the
    companion title or else the fixed sentence as tooltip. *)
Theorem presence_badge_descriptor (g : Generator) (key : string)
    (rule : Generator -> result (option dict)) (sentence : string)
    (per_key : dict) :
  In (key, rule, sentence) presence_rules ->
  dict_has key (_schema g) = true ->
  per_key_entry g key per_key ->
  rule g
  = Return (Some (dict_or
                    (dict_or (base_kwargs g key "true" (Some (anchor g key))
                                (tooltip g key sentence))
                       (_badge_restrictive g))
                    per_key)).
Proof.
  intros Hin Hhas Hper.
  unfold presence_rules in Hin. simpl in Hin.
  repeat (destruct Hin as [Heq | Hin];
          [ injection Heq as <- <- <-;
            match goal with
            | |- ?r _ g = _ => unfold r; cbv zeta
            end;
            apply keyword_kwargs_presence; assumption
          | ]).
  contradiction.
Qed.

(** X6.  [unevaluatedItems] and [unevaluatedProperties] that hold a
    schema: the message is [Defined], the badge links to the anchor of the
    keyword, and no style is applied. *)
Theorem unevaluated_schema_badge (g : Generator) (d per_key : dict) :
  (dict_get Key.UNEVALUATED_ITEMS (_schema g) = Some (PDict d) ->
   per_key_entry g Key.UNEVALUATED_ITEMS per_key ->
   _badge_unevaluated_items g
   = Return (Some (dict_or
                     (base_kwargs g Key.UNEVALUATED_ITEMS "Defined"
                        (Some (anchor g Key.UNEVALUATED_ITEMS))
                        (tooltip g Key.UNEVALUATED_ITEMS
                           "Array elements other than those defined in `items`, `prefixItems`, or `contains` must conform to a separate schema."))
                     per_key))) /\
  (dict_get Key.UNEVALUATED_PROPERTIES (_schema g) = Some (PDict d) ->
   per_key_entry g Key.UNEVALUATED_PROPERTIES per_key ->
   _badge_unevaluated_properties g
   = Return (Some (dict_or
                     (base_kwargs g Key.UNEVALUATED_PROPERTIES "Defined"
                        (Some (anchor g Key.UNEVALUATED_PROPERTIES))
                        (tooltip g Key.UNEVALUATED_PROPERTIES
                           "Unevaluated object properties must conform to a separate schema."))
                     per_key))).
Proof.
  split; intros Hget Hper.
  - unfold _badge_unevaluated_items, _make_keyword_badge_kwargs.
    cbv zeta. unfold dict_has, dict_item. rewrite Hget. simpl.
    erewrite make_badge_kwargs_plain by exact Hper. reflexivity.
  - unfold _badge_unevaluated_properties, _make_keyword_badge_kwargs.
    cbv zeta. unfold dict_has, dict_item. rewrite Hget. simpl.
    erewrite make_badge_kwargs_plain by exact Hper. reflexivity.
Qed.

(** *** Layers of a descriptor *)

Lemma dict_get_not_in (k : string) (d : dict) :
  ~ In k (map fst d) -> dict_get k d = None.
Proof.
  induction d as [| [k0 v0] d IH]; simpl; intros Hnin.
  - reflexivity.
  - destruct (String.eqb k k0) eqn:E.
    + apply String.eqb_eq in E. subst k0. exfalso. apply Hnin. now left.
    + apply IH. intros H. apply Hnin. now right.
Qed.

(** In [a | b], for a dict [b]: a key reads what [b] binds it to, and
    what [a] does when [b] does not bind it. *)
Lemma dict_get_or_lookup (k : string) (a b : dict) :
  dict_wf b ->
  dict_get k (dict_or a b)
  = match dict_get k b with
    | Some v => Some v
    | None => dict_get k a
    end.
Proof.
  unfold dict_wf, dict_or. revert a.
  induction b as [| [k0 v0] b IH]; intros a Hwf; simpl in *.
  - reflexivity.
  - inversion Hwf as [| ? ? Hnin Hwf']; subst.
    rewrite IH by assumption. rewrite dict_get_set.
    destruct (String.eqb k k0) eqn:E.
    + apply String.eqb_eq in E. subst k0.
      rewrite (dict_get_not_in _ _ Hnin). reflexivity.
    + reflexivity.
Qed.

Lemma dict_set_keys (k : string) (v : pyval) (d : dict) :
  map fst (dict_set k v d)
  = if dict_has k d then map fst d else (map fst d ++ [k])%list.
Proof.
  unfold dict_has.
  induction d as [| [k0 v0] d IH]; simpl.
  - reflexivity.
  - destruct (String.eqb k k0) eqn:E; simpl.
    + reflexivity.
    + rewrite IH. destruct (dict_get k d); reflexivity.
Qed.

Lemma dict_has_in (k : string) (d : dict) :
  dict_has k d = false -> ~ In k (map fst d).
Proof.
  unfold dict_has.
  induction d as [| [k0 v0] d IH]; simpl; intros H.
  - tauto.
  - destruct (String.eqb k k0) eqn:E; [discriminate |].
    intros [Heq | Hin].
    + subst k0. rewrite String.eqb_refl in E. discriminate.
    + exact (IH H Hin).
Qed.

Lemma dict_set_wf (k : string) (v : pyval) (d : dict) :
  dict_wf d -> dict_wf (dict_set k v d).
Proof.
  unfold dict_wf. intros Hwf. rewrite dict_set_keys.
  destruct (dict_has k d) eqn:E; [assumption |].
  apply NoDup_app; [assumption | repeat constructor; simpl; tauto |].
  intros x Hx [<- | []]. exact (dict_has_in _ _ E Hx).
Qed.

Lemma dict_or_wf (a b : dict) : dict_wf a -> dict_wf (dict_or a b).
Proof.
  unfold dict_or. revert a.
  induction b as [| [k0 v0] b IH]; intros a Hwf; simpl.
  - assumption.
  - apply IH, dict_set_wf, Hwf.
Qed.

(** X7.  Precedence in a badge descriptor.  When a style is given, every
    key of the descriptor reads what the keyword's entry of
    [_badge_default] binds it to, else what the style does, else the base
    entry; and the descriptor has no key twice. *)
Theorem badge_kwargs_precedence (g : Generator) (key message : string)
    (link : option string) (title : pyval) (style per_key : dict) :
  per_key_entry g key per_key ->
  dict_wf style ->
  dict_wf per_key ->
  exists kw,
    _make_badge_kwargs g key (PStr message) "" link title (Some style)
    = Return kw /\
    dict_wf kw /\
    forall k,
      dict_get k kw
      = match dict_get k per_key with
        | Some v => Some v
        | None =>
            match dict_get k style with
            | Some v => Some v
            | None => dict_get k (base_kwargs g key message link title)
            end
        end.
Proof.
  intros Hper Hstyle Hwf.
  eexists. split; [apply make_badge_kwargs_plain, Hper |].
  split.
  - apply dict_or_wf, dict_or_wf.
    unfold dict_wf, base_kwargs. simpl.
    repeat constructor; simpl; intuition discriminate.
  - intros k. rewrite !dict_get_or_lookup by assumption. reflexivity.
Qed.

(** *** The rule of [$ref] with a registry *)

(** X8.  [_badge_ref] with the default [ref_tag_gen] and [ref_name_gen],
    for a truthy [$ref] that a truthy registry resolves to a schema [d].
    When [d] has no [$id] the rule raises [KeyError], with or without a
    title.  When the [$id] is a string and the title of [d] is a string
    or absent, the badge is the base descriptor with that title, or the
    [$id] when there is none, as message, a link to the slug of the [$id]
    under the reference prefix, and the sentence that names the [$ref]
    as tooltip, with the entry of [_badge_default] for [$ref] laid over
    it and no style. *)
Theorem badge_ref_default_generators (g : Generator) (registry : Registry)
    (d : dict) :
  _ref_tag_gen g = arg_ref_tag_gen default_args ->
  _ref_name_gen g = arg_ref_name_gen default_args ->
  truthy (dict_get_none Key.REF (_schema g)) = true ->
  _registry g = Some registry ->
  registry_bool registry = true ->
  registry_contents registry (dict_get_none Key.REF (_schema g))
  = Return (PDict d) ->
  (dict_get "$id" d = None -> _badge_ref g = Raise KeyError) /\
  (forall id name per_key,
     dict_get "$id" d = Some (PStr id) ->
     dict_get_or "title" (PStr id) d = PStr name ->
     per_key_entry g Key.REF per_key ->
     _badge_ref g
     = Return (Some (dict_or
                       (base_kwargs g Key.REF name
                          (Some ("#" ++ _ref_tag_prefix g ++ "-"
                                 ++ to_slug id))
                          (PStr ("This schema references another schema with ID '"
                                 ++ py_str (dict_get_none Key.REF (_schema g))
                                 ++ "'.")))
                       per_key))).
Proof.
  intros Htag Hname Href Hreg Hbool Hcontents.
  unfold _badge_ref. cbv zeta.
  rewrite Href, Hreg, Hbool, Hcontents, Htag, Hname. simpl.
  unfold dict_item. split.
  - intros ->. reflexivity.
  - intros id name per_key Hid Htitle Hper. rewrite Hid. simpl.
    rewrite Htitle.
    erewrite make_badge_kwargs_plain by exact Hper. reflexivity.
Qed.

(** X9.  A registry whose truth value is false is taken for a missing
    one: a truthy [$ref] then raises the same [ValueError].  With a
    registry that is truthy, an exception of its lookup leaves the rule
    unchanged. *)
Theorem badge_ref_registry_errors (g : Generator) (registry : Registry)
    (e : exn) :
  truthy (dict_get_none Key.REF (_schema g)) = true ->
  _registry g = Some registry ->
  (registry_bool registry = false ->
   _badge_ref g
   = Raise (ValueError "Schema has ref but no registry given.")) /\
  (registry_bool registry = true ->
   registry_contents registry (dict_get_none Key.REF (_schema g)) = Raise e ->
   _badge_ref g = Raise e).
Proof.
  intros Href Hreg. unfold _badge_ref. cbv zeta. rewrite Href, Hreg.
  split.
  - intros ->. reflexivity.
  - intros -> ->. reflexivity.
Qed.

(** *** The walk over the badge keys *)

Lemma badge_loop_app (g : Generator) (before after : list string)
    (badge_items : list dict) :
  badge_loop g (before ++ after) badge_items
  = (items <- badge_loop g before badge_items ;; badge_loop g after items).
Proof.
  revert badge_items.
  induction before as [| key before IH]; intros badge_items; simpl.
  - reflexivity.
  - match goal with
    | |- context [call_badge_method g ?name] =>
        destruct (call_badge_method g name) as [[[item |] | e] |]
    end; simpl; try apply IH; try reflexivity.
    destruct (match item with [] => false | _ :: _ => true end); apply IH.
Qed.

(** X10.  The walk over the badge keys is the concatenation, in the
    order of the keys, of what each key contributes: its result is the
    list it started from (the JSONPath badge) followed, key after key, by
    the badge of each key whose rule yields one; when the rule of a key
    raises, the walk raises what the first such key raises. *)
Theorem badge_loop_in_key_order (g : Generator) (keys : list string)
    (badge_items : list dict) :
  badge_loop g keys badge_items
  = (added <- mapM (key_badges g) keys ;;
     Return (badge_items ++ concat added)%list).
Proof.
  revert badge_items.
  induction keys as [| key keys IH]; intros badge_items.
  - simpl. rewrite app_nil_r. reflexivity.
  - cbn [badge_loop mapM]. unfold key_badges at 1.
    destruct (call_badge_method g ("_badge_" ++ camel_to_snake key))
      as [[[item |] | e] |]; cbn [bind].
    + destruct (truthy (PDict item)); rewrite IH;
        destruct (mapM (key_badges g) keys) as [added | e]; cbn [bind];
        try reflexivity.
      * cbn [concat]. rewrite <- app_assoc. reflexivity.
    + rewrite IH.
      destruct (mapM (key_badges g) keys) as [added | e]; reflexivity.
    + reflexivity.
    + rewrite IH.
      destruct (mapM (key_badges g) keys) as [added | e]; reflexivity.
Qed.

(** X11.  When [camel_to_snake] leaves [default] as it is, a walk over
    keys that hold [default] goes through the keys before it and then
    raises [TypeError]: the name [_badge_default] reads the dict that
    [__init__] stored, which is called.  The keys after [default] are
    never visited. *)
Theorem badge_walk_stops_at_default (g : Generator)
    (before after : list string) (badge_items : list dict) :
  camel_to_snake Key.DEFAULT = "default" ->
  badge_loop g (before ++ Key.DEFAULT :: after) badge_items
  = (badge_loop g before badge_items ;;; Raise TypeError).
Proof.
  intros H. rewrite badge_loop_app.
  destruct (badge_loop g before badge_items) as [items | e]; simpl.
  - rewrite H. reflexivity.
  - reflexivity.
Qed.

(** *** Tabs *)

(** X12.  A simple-value tab is left out exactly when the value, the
    companion title and the companion description are all falsy, and an
    array tab exactly when the companion title and the values are: a
    keyword that is present with a falsy value ([const: false],
    [default: 0], [enum: []]) and no companion text gets no tab. *)
Theorem tab_omitted_iff_nothing_truthy (g : Generator) (key : string)
    (title : option string) :
  (_make_tab_item_simple g key title = Return None <->
   (truthy (dict_get_none key (_schema g))
    || truthy (dict_get_none (_get_title_key g key) (_schema g))
    || truthy (dict_get_none (_get_description_key g key) (_schema g)))%bool
   = false) /\
  (_make_tab_item_array g key title = Return None <->
   (truthy (dict_get_none (_get_title_key g key) (_schema g))
    || truthy (dict_get_none key (_schema g)))%bool = false).
Proof.
  split.
  - unfold _make_tab_item_simple. cbv zeta.
    destruct (_ || _ || _)%bool; simpl; split; intros H;
      try reflexivity; try discriminate.
    apply bind_return_inv in H. destruct H as (? & _ & H). discriminate.
  - unfold _make_tab_item_array. cbv zeta.
    destruct (_ || _)%bool; simpl; split; intros H;
      try reflexivity; try discriminate.
    apply bind_return_inv in H. destruct H as (? & _ & H). discriminate.
Qed.

(** X13.  A simple-value tab whose value is falsy but which has companion
    text is built from that text alone: the title entry first, the
    description entry second, no code block, and [value_code_gen] is not
    consulted, so the tab cannot fail. *)
Theorem simple_tab_without_value (g : Generator) (key : string)
    (title : option string) :
  let intro := dict_get_none (_get_title_key g key) (_schema g) in
  let description :=
    dict_get_none (_get_description_key g key) (_schema g) in
  truthy (dict_get_none key (_schema g)) = false ->
  (truthy intro || truthy description)%bool = true ->
  _make_tab_item_simple g key title
  = Return (Some (_make_tab_item g key
                    (EBlockContainer
                       ((if truthy intro
                         then [(Some "title", EValue intro)] else [])
                        ++ (if truthy description
                            then [(Some "description", EValue description)]
                            else []))%list
                       None [])
                    title)).
Proof.
  intros intro description Hvalue Htext.
  unfold _make_tab_item_simple. cbv zeta.
  fold intro. fold description.
  rewrite Hvalue. simpl. rewrite Htext. reflexivity.
Qed.

(** X14.  A simple-value tab with a truthy value, when
    [value_code_gen] returns a string: the tab holds the companion title
    (if truthy), the companion description (if truthy) and, last, a code
    block with that string stripped, in the configured language. *)
Theorem simple_tab_with_value (g : Generator) (key code : string)
    (title : option string) :
  let value := dict_get_none key (_schema g) in
  let intro := dict_get_none (_get_title_key g key) (_schema g) in
  let description :=
    dict_get_none (_get_description_key g key) (_schema g) in
  truthy value = true ->
  _value_code_gen g value = PStr code ->
  _make_tab_item_simple g key title
  = Return (Some (_make_tab_item g key
                    (EBlockContainer
                       ((if truthy intro
                         then [(Some "title", EValue intro)] else [])
                        ++ (if truthy description
                            then [(Some "description", EValue description)]
                            else [])
                        ++ [(Some "value",
                             ECodeBlock (str_strip code)
                               (_value_code_language g))])%list
                       None [])
                    title)).
Proof.
  intros value intro description Hvalue Hcode.
  unfold _make_tab_item_simple, value_code_block. cbv zeta.
  fold value. fold intro. fold description.
  rewrite Hvalue, Hcode. simpl. rewrite <- app_assoc. reflexivity.
Qed.

(** X15.  With the default [value_code_gen], which returns the YAML
    writer instead of calling it, every simple-value tab with a truthy
    value raises [AttributeError]: the result has no [strip]. *)
Theorem default_value_code_gen_breaks_tab (a : InitArgs) (schema : dict)
    (schema_jsonpath schema_tag_prefix instance_jsonpath key : string)
    (title : option string) :
  arg_value_code_gen a = arg_value_code_gen default_args ->
  truthy (dict_get_none key schema) = true ->
  _make_tab_item_simple
    (bind_call (__init__ a) schema schema_jsonpath schema_tag_prefix
       instance_jsonpath)
    key title
  = Raise (AttributeError "strip").
Proof.
  intros Hgen Hvalue. unfold _make_tab_item_simple. cbv zeta.
  simpl _schema. rewrite Hvalue. simpl.
  unfold value_code_block. simpl _value_code_gen. rewrite Hgen. reflexivity.
Qed.

Lemma skipn_nth_error {A} (l : list A) (i : nat) (x : A) :
  nth_error l i = Some x -> skipn i l = x :: skipn (S i) l.
Proof.
  revert l. induction i as [| i IH]; intros [| y l] H; simpl in *;
    try discriminate.
  - injection H as ->. reflexivity.
  - rewrite (IH _ H). destruct l; reflexivity.
Qed.

Lemma array_items_pairs (g : Generator) (ds : list pyval)
    (vs : list pyval) (blocks : list element) (idx : nat) :
  mapM (value_code_block g) vs = Return blocks ->
  array_items g (PList ds) (Z.of_nat (List.length ds)) idx vs
  = Return (pair_descriptions (skipn idx ds) blocks).
Proof.
  revert blocks idx.
  induction vs as [| v vs IH]; intros blocks idx H; simpl in H.
  - injection H as <-. reflexivity.
  - apply bind_return_inv in H. destruct H as (b & Hb & H).
    apply bind_return_inv in H. destruct H as (bs & Hbs & H).
    injection H as <-.
    simpl. rewrite Hb. simpl.
    destruct (Z.of_nat idx <? Z.of_nat (List.length ds)) eqn:E.
    + apply Z.ltb_lt in E.
      destruct (nth_error ds idx) as [d |] eqn:Hd.
      * simpl.
        rewrite (IH _ (S idx) Hbs). simpl.
        rewrite (skipn_nth_error _ _ Hd). reflexivity.
      * apply nth_error_None in Hd. lia.
    + apply Z.ltb_ge in E.
      assert (H1 : skipn idx ds = []) by (apply skipn_all2; lia).
      assert (H2 : skipn (S idx) ds = []) by (apply skipn_all2; lia).
      cbn [bind]. rewrite (IH _ (S idx) Hbs), H1, H2. reflexivity.
Qed.

Lemma code_blocks_of_codes (g : Generator) (values : list pyval)
    (codes : list string) :
  Forall2 (fun value code => _value_code_gen g value = PStr code)
    values codes ->
  mapM (value_code_block g) values = Return (map (code_block_of g) codes).
Proof.
  induction 1 as [| value code values codes Hcode _ IH]; simpl.
  - reflexivity.
  - unfold value_code_block at 1. rewrite Hcode. simpl. rewrite IH.
    reflexivity.
Qed.

Lemma pair_descriptions_length (ds : list pyval) (blocks : list element) :
  List.length (pair_descriptions ds blocks) = List.length blocks.
Proof.
  revert ds. induction blocks as [| b blocks IH]; intros ds; simpl.
  - reflexivity.
  - destruct ds; simpl; rewrite IH; reflexivity.
Qed.

(** X16.  An array tab ([enum], [examples]) over a non-empty list of
    values and a list of companion descriptions, without companion title,
    when [value_code_gen] returns a string for each value: the tab holds
    one ordered list with an item per value, in order; item [i] is the
    description [i] followed by the code block of the value (its code
    stripped) while descriptions last, and the bare code block after
    that.  Descriptions beyond the number of values are not shown. *)
Theorem array_tab_pairs_descriptions (g : Generator) (key : string)
    (title : option string) (v : pyval) (vs ds : list pyval)
    (codes : list string) :
  dict_get key (_schema g) = Some (PList (v :: vs)) ->
  truthy (dict_get_none (_get_title_key g key) (_schema g)) = false ->
  dict_get_or (_get_description_key g key) (PList []) (_schema g)
  = PList ds ->
  Forall2 (fun value code => _value_code_gen g value = PStr code)
    (v :: vs) codes ->
  _make_tab_item_array g key title
  = Return (Some (_make_tab_item g key
                    (EBlockContainer
                       [(None,
                         EOrderedList
                           (pair_descriptions ds
                              (map (code_block_of g) codes)))]
                       None [])
                    title)) /\
  List.length (pair_descriptions ds (map (code_block_of g) codes))
  = List.length (v :: vs).
Proof.
  intros Hget Hintro Hdesc Hcodes.
  pose proof (code_blocks_of_codes g Hcodes) as Hblocks.
  split.
  - assert (Hvalues : dict_get_none key (_schema g) = PList (v :: vs))
      by (unfold dict_get_none, dict_get_or; now rewrite Hget).
    unfold _make_tab_item_array. cbv zeta.
    rewrite Hvalues, Hintro, Hdesc.
    cbn [truthy negb orb py_len py_iter bind].
    erewrite array_items_pairs with (idx := 0%nat) by exact Hblocks.
    reflexivity.
  - rewrite pair_descriptions_length, length_map.
    symmetry. exact (Forall2_length Hcodes).
Qed.

(** *** The required tab as it is built *)

Lemma all_strs_map_PStr (names : list string) :
  all_strs (map PStr names) = Some names.
Proof.
  induction names as [| n names IH]; simpl; [| rewrite IH]; reflexivity.
Qed.

Lemma required_entries (g : Generator) (props : dict)
    (names : list string) :
  mapM (required_entry g (PDict props)) (map PStr names)
  = Return (map (render_required g props) names).
Proof.
  induction names as [| n names IH]; simpl.
  - reflexivity.
  - rewrite IH. unfold required_entry, render_required. simpl.
    destruct (dict_has n props); reflexivity.
Qed.

(** X17.  The list [_tab_required] builds for a non-empty [required]
    list of names, without [dependentRequired]: one entry per name, in
    lexicographic order of the names, a link to the anchor of the
    property when the name is a key of [properties] and inline code
    otherwise.  (The method drops this tab item afterwards.) *)
Theorem required_tab_built (g : Generator) (n : string)
    (names : list string) (props : dict) :
  dict_get Key.REQUIRED (_schema g) = Some (PList (map PStr (n :: names))) ->
  dict_get Key.DEPENDENT_REQUIRED (_schema g) = None ->
  dict_get_or Key.PROPERTIES (PDict []) (_schema g) = PDict props ->
  _tab_required_built g
  = Return (Some (_make_tab_item g Key.REQUIRED
                    (EUnorderedList
                       (map (render_required g props)
                          (sort_strs (n :: names))))
                    (Some "Required Properties"))) /\
  Sorted str_le (sort_strs (n :: names)) /\
  Permutation (n :: names) (sort_strs (n :: names)).
Proof.
  intros Hreq Hdep Hprops. split; [| apply sort_strs_sorted].
  assert (Hreq' : dict_get_or Key.REQUIRED (PList []) (_schema g)
                  = PList (map PStr (n :: names)))
    by (unfold dict_get_or; now rewrite Hreq).
  assert (Hdep' : dict_get_or Key.DEPENDENT_REQUIRED (PDict []) (_schema g)
                  = PDict [])
    by (unfold dict_get_or; now rewrite Hdep).
  unfold _tab_required_built. cbv zeta.
  rewrite Hreq', Hdep', Hprops.
  cbn [truthy map negb orb].
  unfold py_sorted. cbn [py_iter bind].
  change (PStr n :: map PStr names) with (map PStr (n :: names)).
  rewrite all_strs_map_PStr. cbn [bind]. rewrite required_entries.
  cbn [bind sort_items fold_right mapM]. rewrite app_nil_r. reflexivity.
Qed.

Lemma insert_item_group (x : string * list string)
    (l : list (string * list string)) :
  insert_item (group_item x) (map group_item l)
  = map group_item (insert_group x l).
Proof.
  induction l as [| y l IH]; simpl.
  - reflexivity.
  - destruct (String.leb (fst x) (fst y)); simpl; [| rewrite IH];
      reflexivity.
Qed.

Lemma sort_items_groups (groups : list (string * list string)) :
  sort_items (map group_item groups) = map group_item (sort_groups groups).
Proof.
  induction groups as [| x groups IH]; simpl.
  - reflexivity.
  - unfold sort_items in *. simpl. rewrite IH. apply insert_item_group.
Qed.

Definition group_le (a b : string * list string) : Prop :=
  str_le (fst a) (fst b).

Lemma insert_group_perm (x : string * list string)
    (l : list (string * list string)) :
  Permutation (x :: l) (insert_group x l).
Proof.
  induction l as [| y l IH]; simpl.
  - apply Permutation_refl.
  - destruct (String.leb (fst x) (fst y)).
    + apply Permutation_refl.
    + eapply perm_trans; [apply perm_swap | apply perm_skip, IH].
Qed.

Lemma insert_group_sorted (x : string * list string)
    (l : list (string * list string)) :
  Sorted group_le l -> Sorted group_le (insert_group x l).
Proof.
  induction l as [| y l IH]; simpl; intros Hs.
  - repeat constructor.
  - destruct (String.leb (fst x) (fst y)) eqn:E.
    + constructor; [assumption | constructor; exact E].
    + apply str_leb_total in E. inversion Hs as [| ? ? Hs' Hhd]; subst.
      constructor; [apply IH; assumption |].
      destruct l as [| z l]; simpl.
      * constructor; exact E.
      * destruct (String.leb (fst x) (fst z)); constructor;
          [exact E | inversion Hhd; assumption].
Qed.

Lemma sort_groups_sorted (l : list (string * list string)) :
  Sorted group_le (sort_groups l) /\ Permutation l (sort_groups l).
Proof.
  induction l as [| x l [Hs Hp]]; simpl.
  - split; constructor.
  - split.
    + apply insert_group_sorted, Hs.
    + eapply perm_trans; [apply perm_skip, Hp | apply insert_group_perm].
Qed.

Lemma dependent_entries_plain (g : Generator) (code : string)
    (names : list string) :
  mapM (dependent_entry g (PDict []) code) (map PStr names)
  = Return (map (fun name => EText ("`" ++ name ++ "`")) names).
Proof.
  induction names as [| n names IH]; simpl.
  - reflexivity.
  - rewrite IH. reflexivity.
Qed.

Lemma dependency_entries_plain (g : Generator)
    (groups : list (string * list string)) :
  mapM (dependency_entry g (PDict [])) (map group_item groups)
  = Return (map dependency_block groups).
Proof.
  induction groups as [| [k names] groups IH]; simpl.
  - reflexivity.
  - rewrite dependent_entries_plain. simpl. rewrite IH. reflexivity.
Qed.

(** X18.  The list [_tab_required] builds for a non-empty
    [dependentRequired] whose groups hold names, without [required] and
    [properties]: one block per group, in lexicographic order of the
    dependencies, headed "If `dependency` is present:" and listing the
    dependents as inline code in the order the schema gives them. *)
Theorem dependent_required_tab_built (g : Generator)
    (group : string * list string) (groups : list (string * list string)) :
  dict_get Key.REQUIRED (_schema g) = None ->
  dict_get Key.PROPERTIES (_schema g) = None ->
  dict_get Key.DEPENDENT_REQUIRED (_schema g)
  = Some (PDict (map group_item (group :: groups))) ->
  _tab_required_built g
  = Return (Some (_make_tab_item g Key.REQUIRED
                    (EUnorderedList
                       (map dependency_block
                          (sort_groups (group :: groups))))
                    (Some "Required Properties"))) /\
  Sorted group_le (sort_groups (group :: groups)) /\
  Permutation (group :: groups) (sort_groups (group :: groups)).
Proof.
  intros Hreq Hprops Hdep. split; [| apply sort_groups_sorted].
  assert (Hreq' : dict_get_or Key.REQUIRED (PList []) (_schema g) = PList [])
    by (unfold dict_get_or; now rewrite Hreq).
  assert (Hprops' : dict_get_or Key.PROPERTIES (PDict []) (_schema g)
                    = PDict [])
    by (unfold dict_get_or; now rewrite Hprops).
  assert (Hdep' : dict_get_or Key.DEPENDENT_REQUIRED (PDict []) (_schema g)
                  = PDict (map group_item (group :: groups)))
    by (unfold dict_get_or; now rewrite Hdep).
  unfold _tab_required_built. cbv zeta.
  rewrite Hreq', Hprops', Hdep'.
  cbn [truthy map negb orb py_sorted py_iter all_strs bind sort_strs
       fold_right mapM app].
  change (group_item group :: map group_item groups)
    with (map group_item (group :: groups)).
  rewrite sort_items_groups, dependency_entries_plain. reflexivity.
Qed.

(** *** The definition lists *)

(** X19.  [_generate_props] returns only for an empty mapping, and then
    the opening and the closing tag alone; with a property to render it
    raises [AttributeError], since it calls [self._make_header_badges],
    which the class does not define. *)
Theorem generate_props_outcome (g : Generator) (pattern : bool) :
  _generate_props g pattern
  = match _schema g with
    | [] => Return [ ("div_open", deflist_open g);
                     ("div_close", EText "</div>") ]
    | _ :: _ => Raise (AttributeError "_make_header_badges")
    end.
Proof.
  unfold _generate_props, props_loop.
  destruct (_schema g) as [| [key sub_schema] rest]; reflexivity.
Qed.

(** X20.  [generate_if_then_else] skips the sub-schemas that are absent
    or falsy (an empty schema [{}] and [false] among them).  When [if],
    [then] and [else] all are, it returns the opening and the closing tag
    alone; with a truthy one it raises [AttributeError] (the missing
    [_make_header_badges]). *)
Theorem generate_if_then_else_outcome (g : Generator) :
  generate_if_then_else g
  = if (truthy (dict_get_none "if" (_schema g))
        || truthy (dict_get_none "then" (_schema g))
        || truthy (dict_get_none "else" (_schema g)))%bool
    then Raise (AttributeError "_make_header_badges")
    else Return [ ("div_open", deflist_open g);
                  ("div_close", EText "</div>") ].
Proof.
  unfold generate_if_then_else, if_then_else_loop.
  destruct (truthy (dict_get_none "if" (_schema g)));
    destruct (truthy (dict_get_none "then" (_schema g)));
    destruct (truthy (dict_get_none "else" (_schema g))); reflexivity.
Qed.

(** *** Construction *)

(** X21.  Whatever the arguments, a constructed generator has a
    non-empty permissive and a non-empty restrictive style: [None] and an
    empty dict are both replaced by the default colour, so a boolean
    badge always gets a style with at least one entry. *)
Theorem init_styles_nonempty (a : InitArgs) :
  truthy (PDict (_badge_permissive (__init__ a))) = true /\
  truthy (PDict (_badge_restrictive (__init__ a))) = true /\
  (truthy (PDict (dict_if_not_none (arg_badge_permissive a) [])) = false ->
   _badge_permissive (__init__ a) = [("color", PStr "#00802B")]) /\
  (truthy (PDict (dict_if_not_none (arg_badge_restrictive a) [])) = false ->
   _badge_restrictive (__init__ a) = [("color", PStr "#AF1F10")]).
Proof.
  unfold __init__. simpl.
  destruct (arg_badge_permissive a) as [[| kv p] |];
    destruct (arg_badge_restrictive a) as [[| kv' r] |]; simpl;
    repeat split; try reflexivity; discriminate.
Qed.

(** *** More on badges and tabs *)

(** X22.  The descriptor of the other boolean badges ([readOnly],
    [writeOnly], [uniqueItems]): the base descriptor with the lowercase
    text of the boolean as message, no link and the sentence of the rule
    (or the companion title) as tooltip, then the restrictive style for
    [True] and the permissive style for [False], then the keyword's entry
    of [_badge_default], which takes precedence over the style. *)
Theorem boolean_rules_descriptor (g : Generator) (key : string)
    (rule : Generator -> result (option dict)) (sentence : bool -> string)
    (b : bool) (per_key : dict) :
  In (key, rule, sentence) boolean_rules ->
  dict_get key (_schema g) = Some (PBool b) ->
  per_key_entry g key per_key ->
  rule g
  = Return (Some (dict_or
                    (dict_or (base_kwargs g key (bool_text b) None
                                (tooltip g key (sentence b)))
                       (if b then _badge_restrictive g
                        else _badge_permissive g))
                    per_key)).
Proof.
  intros Hin Hget Hper.
  unfold boolean_rules in Hin. simpl in Hin.
  repeat (destruct Hin as [Heq | Hin];
          [ injection Heq as <- <- <-;
            match goal with
            | |- ?r _ g = _ => unfold r, keyword_badge
            end;
            destruct b;
            match goal with
            | |- _ = Return (Some (dict_or
                                     (dict_or
                                        (base_kwargs _ _ _ _ (tooltip _ _ ?s))
                                        _) _)) =>
                eapply keyword_kwargs_boolean with (sentence := s)
            end;
            first [exact Hget | exact Hper | reflexivity]
          | ]).
  contradiction.
Qed.

(** X23.  [_tab_required] builds nothing exactly when [required] and
    [dependentRequired] are both falsy (absent, or empty): otherwise it
    builds a tab item or raises. *)
Theorem required_tab_skipped_iff_falsy (g : Generator) :
  _tab_required_built g = Return None <->
  (truthy (dict_get_or Key.REQUIRED (PList []) (_schema g))
   || truthy (dict_get_or Key.DEPENDENT_REQUIRED (PDict []) (_schema g)))%bool
  = false.
Proof.
  unfold _tab_required_built. cbv zeta.
  destruct (_ || _)%bool; simpl; split; intros H;
    try reflexivity; try discriminate.
  repeat (apply bind_return_inv in H; destruct H as (? & _ & H)).
  discriminate.
Qed.

Lemma simple_tab_is_tab_item (g : Generator) (key : string)
    (title : option string) (tab : element) :
  _make_tab_item_simple g key title = Return (Some tab) ->
  tab_name tab = Some (_make_tag g [key]).
Proof.
  unfold _make_tab_item_simple. cbv zeta.
  destruct (negb _); [discriminate |]. intros H.
  apply bind_return_inv in H. destruct H as (content & _ & H).
  injection H as <-. reflexivity.
Qed.

Lemma array_tab_is_tab_item (g : Generator) (key : string)
    (title : option string) (tab : element) :
  _make_tab_item_array g key title = Return (Some tab) ->
  tab_name tab = Some (_make_tag g [key]).
Proof.
  unfold _make_tab_item_array. cbv zeta.
  destruct (negb _); [discriminate |]. intros H.
  apply bind_return_inv in H. destruct H as (content & _ & H).
  injection H as <-. reflexivity.
Qed.

Lemma presence_badge_link (g : Generator) (key sentence link : string)
    (kw per_key : dict) :
  _make_keyword_badge_kwargs g key MsgNone (Some (PBool true)) false
    message_complex_default (TitleStr sentence) (LinkStr link)
  = Return (Some kw) ->
  per_key_entry g key per_key ->
  dict_get "link" per_key = None ->
  dict_get "link" (_badge_restrictive g) = None ->
  dict_get "link" kw = Some (PStr link).
Proof.
  intros H Hper Hlink Hstyle.
  destruct (dict_has key (_schema g)) eqn:Hhas.
  - rewrite (keyword_kwargs_presence sentence link Hhas Hper) in H.
    injection H as <-.
    rewrite !dict_get_or_absent by assumption. reflexivity.
  - rewrite keyword_kwargs_absent in H by assumption. discriminate.
Qed.

(** X24.  Badge links meet tab anchors.  For [const], [pattern] and
    [enum], when the rule yields a badge and the tab rule yields a tab,
    the link of the badge is [#] followed by the anchor name of the tab,
    provided neither the restrictive style nor the keyword's entry of
    [_badge_default] binds [link]. *)
Theorem badge_link_meets_tab_anchor (g : Generator) (key : string)
    (rule : Generator -> result (option dict))
    (tab_rule : Generator -> result (option element))
    (kw per_key : dict) (tab : element) :
  In (key, rule, tab_rule) tabbed_rules ->
  rule g = Return (Some kw) ->
  tab_rule g = Return (Some tab) ->
  per_key_entry g key per_key ->
  dict_get "link" per_key = None ->
  dict_get "link" (_badge_restrictive g) = None ->
  exists name,
    tab_name tab = Some name /\
    dict_get "link" kw = Some (PStr ("#" ++ name)).
Proof.
  intros Hin Hrule Htab Hper Hlink Hstyle.
  exists (_make_tag g [key]).
  unfold tabbed_rules in Hin. simpl in Hin.
  destruct Hin as [Heq | [Heq | [Heq | []]]];
    injection Heq as <- <- <-; split.
  - eapply simple_tab_is_tab_item. exact Htab.
  - unfold _badge_const in Hrule.
    eapply presence_badge_link; eassumption.
  - eapply simple_tab_is_tab_item. exact Htab.
  - unfold _badge_pattern in Hrule.
    eapply presence_badge_link; eassumption.
  - eapply array_tab_is_tab_item. exact Htab.
  - unfold _badge_enum in Hrule.
    eapply presence_badge_link; eassumption.
Qed.

End Properties.

(* ------------------------------------------------------------------ *)
(** ** The properties on the sample inputs *)

#[local] Existing Instance sample_collaborators.

(** *** Builtins *)

Example str_of_Z_examples :
  str_of_Z 5 = "5" /\ str_of_Z 0 = "0" /\ str_of_Z (-12) = "-12".
Proof. repeat split; reflexivity. Qed.

Example sort_strs_example : sort_strs ["b"; "a"; "c"] = ["a"; "b"; "c"].
Proof. reflexivity. Qed.

Example snake_names :
  map camel_to_snake [Key.DEFAULT; Key.READ_ONLY; Key.DEPENDENT_REQUIRED]
  = ["default"; "read_only"; "dependent_required"].
Proof. reflexivity. Qed.

(** *** C1 *)

(** A schema with [default]: [_generate_tabs] looks for [tab_default],
    which the class does not have. *)
Example generate_tabs_on_default :
  _generate_tabs (bound schema_default)
  = Raise (AttributeError "tab_default").
Proof. reflexivity. Qed.

(** A schema with none of the tab keywords: the raw-schema tab fails. *)
Example generate_tabs_on_plain :
  _generate_tabs (bound schema_plain) = Raise (NameError "schema").
Proof. reflexivity. Qed.

(** *** C2 *)

(** [$ref] is present with the empty string and there is no registry:
    the rule yields no badge and raises nothing, and what
    [generate_schema] raises is not the configuration error. *)
Lemma empty_ref_no_configuration_error :
  dict_has Key.REF schema_empty_ref = true /\
  _registry fresh_generator = None /\
  _badge_ref (bound schema_empty_ref) = Return None /\
  fst (generate_schema fresh_generator schema_empty_ref "$" "ex" "$")
  = Raise TypeError.
Proof. repeat split; reflexivity. Qed.

Lemma badge_ref_without_registry_witness :
  truthy (dict_get_none Key.REF (_schema (bound schema_ref))) = true /\
  _registry (bound schema_ref) = None /\
  _badge_ref (bound schema_ref)
  = Raise (ValueError "Schema has ref but no registry given.").
Proof.
  split; [reflexivity |]. split; [reflexivity |].
  apply (badge_ref_without_registry (bound schema_ref)); reflexivity.
Defined.

(** *** C3 *)

Lemma badge_maximum_needs_max_length_witness :
  dict_has Key.MAXIMUM (_schema (bound schema_maximum)) = true /\
  dict_has Key.MAX_LENGTH (_schema (bound schema_maximum)) = false /\
  _badge_maximum (bound schema_maximum) = Return None.
Proof.
  split; [reflexivity |]. split; [reflexivity |].
  apply (badge_maximum_needs_max_length (bound schema_maximum)); reflexivity.
Defined.

(** With [maxLength] and no [maximum], the rule of [maximum] yields a
    badge: the one of [maxLength], with the sentence of [maximum]. *)
Example badge_maximum_on_max_length_example :
  _badge_maximum (bound schema_max_length)
  = Return (Some
      [ ("label", PStr "max Length");
        ("args", PDict [("message", PStr "3")]);
        ("alt", PStr "3");
        ("link", PNone);
        ("title", PStr "This value must be smaller than or equal to 3.") ]).
Proof. reflexivity. Qed.

(** *** C4 *)

Lemma count_badges_raise_witness :
  let g := bound schema_counts in
  (dict_has Key.REQUIRED (_schema g) = true /\
   dict_has Key.DEPENDENT_REQUIRED (_schema g) = true /\
   dict_has Key.PREFIX_ITEMS (_schema g) = true) /\
  (_badge_required g = Raise TypeError /\
   _badge_dependent_required g = Raise TypeError /\
   _badge_prefix_items g = Raise TypeError).
Proof.
  intros g.
  destruct (count_badges_raise g) as (H1 & H2 & H3).
  split; [repeat split; reflexivity |].
  split; [apply H1; reflexivity |].
  split; [apply H2; reflexivity | apply H3; reflexivity].
Defined.

(** *** C5 *)

Lemma schema_plain_has_no_keyword :
  forall key, In key recognized_keys -> dict_has key schema_plain = false.
Proof.
  intros key Hin. unfold recognized_keys in Hin. simpl in Hin.
  repeat (destruct Hin as [<- | Hin]; [reflexivity |]).
  contradiction.
Qed.

Lemma generate_schema_plain_raises_witness :
  (forall key, In key recognized_keys -> dict_has key schema_plain = false) /\
  raises (fst (generate_schema fresh_generator schema_plain "$" "ex" "$")).
Proof.
  split; [exact schema_plain_has_no_keyword |].
  apply (generate_schema_plain_raises fresh_generator schema_plain
           "$" "ex" "$" schema_plain_has_no_keyword).
Defined.

(** What [generate_schema] raises on the plain schema: the loop of
    [_generate_badges] reaches the key [default], finds the dict
    [__init__] stored under [_badge_default], and calls it. *)
Example generate_schema_on_plain :
  fst (generate_schema fresh_generator schema_plain "$" "ex" "$")
  = Raise TypeError.
Proof. reflexivity. Qed.

(** *** C6 *)

(** [deprecated], [unevaluatedItems] and [unevaluatedProperties] set to
    [false] on the fresh generator: the entry of [_badge_default] for
    [deprecated] binds [color], the other two keywords have no entry. *)
Lemma boolean_badge_descriptor_witness :
  let g := bound (schema_booleans false) in
  (dict_get Key.DEPRECATED (_schema g) = Some (PBool false) /\
   per_key_entry g Key.DEPRECATED [("color", PStr "#AF1F10")] /\
   dict_get Key.UNEVALUATED_ITEMS (_schema g) = Some (PBool false) /\
   per_key_entry g Key.UNEVALUATED_ITEMS [] /\
   dict_get Key.UNEVALUATED_PROPERTIES (_schema g) = Some (PBool false) /\
   per_key_entry g Key.UNEVALUATED_PROPERTIES []) /\
  (_badge_deprecated g
   = Return (Some [ ("label", PStr "deprecated");
                    ("args", PDict [("message", PStr "false")]);
                    ("alt", PStr "false");
                    ("link", PNone);
                    ("title", PStr "This value is not deprecated.");
                    ("color", PStr "#AF1F10") ]) /\
   _badge_unevaluated_items g
   = Return (Some [ ("label", PStr "unevaluated Items");
                    ("args", PDict [("message", PStr "false")]);
                    ("alt", PStr "false");
                    ("link", PNone);
                    ("title",
                     PStr "Array elements other than those defined in `items`, `prefixItems`, or `contains` are not allowed.");
                    ("color", PStr "#AF1F10") ]) /\
   _badge_unevaluated_properties g
   = Return (Some [ ("label", PStr "unevaluated Properties");
                    ("args", PDict [("message", PStr "false")]);
                    ("alt", PStr "false");
                    ("link", PNone);
                    ("title",
                     PStr "Unevaluated object properties are not allowed.");
                    ("color", PStr "#AF1F10") ])).
Proof.
  intros g.
  split; [repeat split; reflexivity |].
  split; [| split].
  - exact (proj1 (boolean_badge_descriptor g false
                    [("color", PStr "#AF1F10")]) eq_refl eq_refl).
  - exact (proj1 (proj2 (boolean_badge_descriptor g false []))
             eq_refl eq_refl).
  - exact (proj2 (proj2 (boolean_badge_descriptor g false []))
             eq_refl eq_refl).
Defined.

(** On the fresh generator the badge of [deprecated: false] has the
    colour of the restrictive style, not the one of the permissive
    style: [__init__] gives [deprecated] an entry of its own in
    [_badge_default], which is laid over the style. *)
Lemma deprecated_false_has_restrictive_colour :
  exists kw,
    _badge_deprecated (bound (schema_booleans false)) = Return (Some kw) /\
    dict_get "color" kw = Some (PStr "#AF1F10") /\
    dict_get "color" (_badge_restrictive fresh_generator)
    = Some (PStr "#AF1F10") /\
    dict_get "color" (_badge_permissive fresh_generator)
    = Some (PStr "#00802B").
Proof.
  eexists. repeat split; reflexivity.
Qed.

(** The descriptors on the fresh generator.  [unevaluatedItems] has no
    entry of its own in [_badge_default], so the colour of the style
    shows; [deprecated] has one (set by [__init__]), which is laid over
    the style. *)
Example unevaluated_items_colours :
  (exists kw,
     _badge_unevaluated_items (bound (schema_booleans true))
     = Return (Some kw) /\
     dict_get "color" kw = Some (PStr "#00802B") /\
     dict_get "args" kw = Some (PDict [("message", PStr "true")])) /\
  (exists kw,
     _badge_unevaluated_items (bound (schema_booleans false))
     = Return (Some kw) /\
     dict_get "color" kw = Some (PStr "#AF1F10") /\
     dict_get "args" kw = Some (PDict [("message", PStr "false")])).
Proof.
  split; eexists; repeat split; reflexivity.
Qed.

Example deprecated_colours :
  _badge_default fresh_generator
  = [ ("type", PDict [("label", PStr "Type")]);
      ("$id", PDict [("label", PStr "ID")]);
      ("$ref", PDict [("label", PStr "Ref")]);
      ("$defs", PDict [("label", PStr "Defs")]);
      ("allOf", PDict [("label", PStr "All Of")]);
      ("anyOf", PDict [("label", PStr "Any Of")]);
      ("required", PDict [("color", PStr "#AF1F10")]);
      ("deprecated", PDict [("color", PStr "#AF1F10")]);
      ("readOnly", PDict [("color", PStr "#D93402")]);
      ("writeOnly", PDict [("color", PStr "#D93402")]) ] /\
  (exists kw,
     _badge_deprecated (bound (schema_booleans true)) = Return (Some kw) /\
     dict_get "color" kw = Some (PStr "#AF1F10")) /\
  (exists kw,
     _badge_deprecated (bound (schema_booleans false)) = Return (Some kw) /\
     dict_get "color" kw = Some (PStr "#AF1F10")).
Proof.
  split; [reflexivity |].
  split; eexists; repeat split; reflexivity.
Qed.

(** *** C7 *)

(** The input of the claim: the list is built with [a] first, as a link,
    and [b] second, as inline code; the method then returns [None]. *)
Example tab_required_on_example :
  _tab_required_built (bound schema_required)
  = Return (Some
      (ETabItem
         (EUnorderedList [EText "[`a`](#ex---properties-a)"; EText "`b`"])
         "Required Properties" "ex---required"
         ["jsonschema-tab-item-container"]
         ["jsonschema-tab-item-content"]
         ["jsonschema-tab-item-label"])) /\
  _tab_required (bound schema_required) = Return None.
Proof. split; reflexivity. Qed.

(** Dependents keep the order of the schema, and a dependent that is a
    property is linked under the text of its dependency. *)
Example tab_required_on_dependents :
  _tab_required_built (bound schema_dependent)
  = Return (Some
      (ETabItem
         (EUnorderedList
            [ EBlockContainer
                [ (None, EText "If `x` is present:");
                  (None, EUnorderedList [EText "[`x`](#ex---properties-p)"]) ]
                None [];
              EBlockContainer
                [ (None, EText "If `y` is present:");
                  (None, EUnorderedList
                           [EText "`q`"; EText "[`y`](#ex---properties-p)"]) ]
                None [] ])
         "Required Properties" "ex---required"
         ["jsonschema-tab-item-container"]
         ["jsonschema-tab-item-content"]
         ["jsonschema-tab-item-label"])).
Proof. reflexivity. Qed.

(** *** C8 *)

(** [summary] and [description] are in the schema, each with the empty
    string: neither block is built. *)
Lemma empty_summary_no_block :
  dict_has Key.SUMMARY schema_empty_texts = true /\
  _generate_summary (bound schema_empty_texts) = None /\
  dict_has Key.DESCRIPTION schema_empty_texts = true /\
  _generate_description (bound schema_empty_texts) = None.
Proof. repeat split; reflexivity. Qed.

(** *** C9 *)

(** After a call the generator holds the schema of the call, which it
    did not hold before. *)
Lemma call_leaves_schema_bound :
  _schema fresh_generator = [] /\
  _schema (snd (generate_schema fresh_generator schema_type "$" "ex" "$"))
  = schema_type /\
  _schema_tag_prefix
    (snd (generate_schema fresh_generator schema_type "$" "ex" "$"))
  = "ex".
Proof. repeat split; reflexivity. Qed.

(** A generator that has served a call and a fresh one give the same
    outcome on the next call. *)
Lemma generate_schema_function_of_configuration_witness :
  let used := snd (generate_schema fresh_generator schema_plain
                     "$.a" "other" "$.a") in
  same_configuration fresh_generator used /\
  generate_schema fresh_generator schema_type "$" "ex" "$"
  = generate_schema used schema_type "$" "ex" "$" /\
  _schema (snd (generate_schema fresh_generator schema_type "$" "ex" "$"))
  = schema_type.
Proof.
  intros used.
  assert (H : same_configuration fresh_generator used)
    by (repeat split; reflexivity).
  split; [exact H |].
  destruct (generate_schema_function_of_configuration
              schema_type "$" "ex" "$" H) as (Hcall & _ & Hschema & _).
  split; [exact Hcall | exact Hschema].
Defined.

(** *** C10 *)

Lemma badge_ref_falsy_no_badge_witness :
  dict_get Key.REF (_schema (bound schema_empty_ref)) = Some (PStr "") /\
  truthy (PStr "") = false /\
  _registry (bound schema_empty_ref) = None /\
  _badge_ref (bound schema_empty_ref) = Return None.
Proof.
  split; [reflexivity |]. split; [reflexivity |]. split; [reflexivity |].
  apply (badge_ref_falsy_no_badge (bound schema_empty_ref) (ref_id := PStr ""));
    reflexivity.
Defined.

(** *** Further properties on the sample inputs *)

(** [minimum: 0] is shown, with the companion title as tooltip. *)
Lemma scalar_badge_descriptor_witness :
  let g := bound schema_scalars in
  (In (Key.MINIMUM, _badge_minimum,
       (fun v => "This value must be greater than or equal to " ++ v ++ "."),
       false) scalar_rules /\
   dict_get Key.MINIMUM (_schema g) = Some (PInt 0) /\
   is_scalar (PInt 0) = true /\
   per_key_entry g Key.MINIMUM []) /\
  _badge_minimum g
  = Return (Some [ ("label", PStr "minimum");
                   ("args", PDict [("message", PStr "0")]);
                   ("alt", PStr "0");
                   ("link", PNone);
                   ("title", PStr "Not below zero.") ]).
Proof.
  intros g.
  assert (Hin : In (Key.MINIMUM, _badge_minimum,
                    (fun v => "This value must be greater than or equal to "
                              ++ v ++ "."),
                    false) scalar_rules)
    by (do 6 right; left; reflexivity).
  split; [repeat split; try reflexivity; exact Hin |].
  exact (scalar_badge_descriptor (g := g) (value := PInt 0) (per_key := [])
           Hin eq_refl eq_refl eq_refl).
Defined.

(** [format] holding an object. *)
Lemma scalar_badge_object_raises_witness :
  let g := bound schema_scalars in
  (In (Key.FORMAT, _badge_format,
       (fun v => "This value must be a string with '" ++ v ++ "' format."),
       false) scalar_rules /\
   dict_get Key.FORMAT (_schema g) = Some (PDict [])) /\
  _badge_format g = Raise TypeError.
Proof.
  intros g.
  assert (Hin : In (Key.FORMAT, _badge_format,
                    (fun v => "This value must be a string with '" ++ v
                              ++ "' format."),
                    false) scalar_rules)
    by (do 1 right; left; reflexivity).
  split; [split; [exact Hin | reflexivity] |].
  exact (scalar_badge_object_raises g (value := PDict []) Hin eq_refl
           (or_intror (ex_intro _ [] eq_refl))).
Defined.

Lemma type_list_badge_witness :
  let g := bound schema_type_list in
  (dict_get Key.TYPE (_schema g) = Some (PList [PStr "string"; PStr "null"]) /\
   per_key_entry g Key.TYPE [("label", PStr "Type")]) /\
  _badge_type g
  = Return (Some [ ("label", PStr "Type");
                   ("args", PDict [("message", PStr "string | null")]);
                   ("alt", PStr "string | null");
                   ("link", PNone);
                   ("title",
                    PStr "This value must have one of the following data types: string, null.") ]).
Proof.
  intros g. split; [split; reflexivity |].
  exact (type_list_badge (g := g) (l := [PStr "string"; PStr "null"])
           (per_key := [("label", PStr "Type")]) eq_refl eq_refl).
Defined.

(** [const: null]: the badge says [true], in the restrictive colour. *)
Lemma presence_badge_descriptor_witness :
  let g := bound schema_const_null in
  (In (Key.CONST, _badge_const, "This value is a constant.") presence_rules /\
   dict_has Key.CONST (_schema g) = true /\
   per_key_entry g Key.CONST []) /\
  _badge_const g
  = Return (Some [ ("label", PStr "const");
                   ("args", PDict [("message", PStr "true")]);
                   ("alt", PStr "true");
                   ("link", PStr "#ex---const");
                   ("title", PStr "This value is a constant.");
                   ("color", PStr "#AF1F10") ]).
Proof.
  intros g.
  assert (Hin : In (Key.CONST, _badge_const, "This value is a constant.")
                  presence_rules)
    by (left; reflexivity).
  split; [repeat split; try reflexivity; exact Hin |].
  exact (presence_badge_descriptor (g := g) (per_key := []) Hin
           eq_refl eq_refl).
Defined.

Lemma unevaluated_schema_badge_witness :
  let g := bound schema_unevaluated in
  let d := [("type", PStr "string")] in
  (dict_get Key.UNEVALUATED_ITEMS (_schema g) = Some (PDict d) /\
   per_key_entry g Key.UNEVALUATED_ITEMS [] /\
   dict_get Key.UNEVALUATED_PROPERTIES (_schema g) = Some (PDict d) /\
   per_key_entry g Key.UNEVALUATED_PROPERTIES []) /\
  _badge_unevaluated_items g
  = Return (Some [ ("label", PStr "unevaluated Items");
                   ("args", PDict [("message", PStr "Defined")]);
                   ("alt", PStr "Defined");
                   ("link", PStr "#ex---unevaluateditems");
                   ("title",
                    PStr "Array elements other than those defined in `items`, `prefixItems`, or `contains` must conform to a separate schema.") ]) /\
  _badge_unevaluated_properties g
  = Return (Some [ ("label", PStr "unevaluated Properties");
                   ("args", PDict [("message", PStr "Defined")]);
                   ("alt", PStr "Defined");
                   ("link", PStr "#ex---unevaluatedproperties");
                   ("title",
                    PStr "Unevaluated object properties must conform to a separate schema.") ]).
Proof.
  intros g d.
  destruct (unevaluated_schema_badge g d []) as [Hitems Hprops].
  split; [repeat split; reflexivity |].
  split; [exact (Hitems eq_refl eq_refl) | exact (Hprops eq_refl eq_refl)].
Defined.

(** The layers for [deprecated: false] on the fresh generator: the
    colour of the keyword's entry, not the one of the permissive style. *)
Lemma badge_kwargs_precedence_witness :
  let g := bound (schema_booleans false) in
  let per_key := [("color", PStr "#AF1F10")] in
  (per_key_entry g Key.DEPRECATED per_key /\
   dict_wf (_badge_permissive g) /\
   dict_wf per_key) /\
  exists kw,
    _make_badge_kwargs g Key.DEPRECATED (PStr "false") "" None PNone
      (Some (_badge_permissive g))
    = Return kw /\
    dict_get "color" kw = Some (PStr "#AF1F10") /\
    dict_get "alt" kw = Some (PStr "false").
Proof.
  intros g per_key.
  assert (Hstyle : dict_wf (_badge_permissive g))
    by (repeat constructor; simpl; tauto).
  assert (Hwf : dict_wf per_key) by (repeat constructor; simpl; tauto).
  split; [repeat split; try reflexivity; assumption |].
  destruct (badge_kwargs_precedence (g := g) (key := Key.DEPRECATED)
              "false" None PNone (style := _badge_permissive g)
              (per_key := per_key) eq_refl Hstyle Hwf)
    as (kw & Hkw & _ & Hget).
  exists kw. split; [exact Hkw |].
  split; rewrite Hget; reflexivity.
Defined.

Lemma badge_ref_default_generators_witness :
  let g := bound_with (Some sample_registry) padded_code schema_ref in
  let d := [("$id", PStr "urn:x"); ("title", PStr "Person")] in
  let d' := [("title", PStr "Person")] in
  let g' := bound_with (Some (constant_registry d')) padded_code schema_ref in
  (_ref_tag_gen g = arg_ref_tag_gen default_args /\
   _ref_name_gen g = arg_ref_name_gen default_args /\
   truthy (dict_get_none Key.REF (_schema g)) = true /\
   _registry g = Some sample_registry /\
   registry_bool sample_registry = true /\
   registry_contents sample_registry (dict_get_none Key.REF (_schema g))
   = Return (PDict d) /\
   dict_get "$id" d = Some (PStr "urn:x") /\
   dict_get_or "title" (PStr "urn:x") d = PStr "Person" /\
   per_key_entry g Key.REF [("label", PStr "Ref")] /\
   _registry g' = Some (constant_registry d') /\
   dict_get "$id" d' = None) /\
  _badge_ref g
  = Return (Some [ ("label", PStr "Ref");
                   ("args", PDict [("message", PStr "Person")]);
                   ("alt", PStr "Person");
                   ("link", PStr "#jsonschema-ref-urn-x");
                   ("title",
                    PStr "This schema references another schema with ID 'urn:x'.") ]) /\
  _badge_ref g' = Raise KeyError.
Proof.
  intros g d d' g'. split; [repeat split; reflexivity |].
  split.
  - exact (proj2 (badge_ref_default_generators g (registry := sample_registry)
                    (d := d) eq_refl eq_refl eq_refl eq_refl eq_refl eq_refl)
             "urn:x" "Person" [("label", PStr "Ref")]
             eq_refl eq_refl eq_refl).
  - exact (proj1 (badge_ref_default_generators g'
                    (registry := constant_registry d') (d := d')
                    eq_refl eq_refl eq_refl eq_refl eq_refl eq_refl)
             eq_refl).
Defined.

(** An empty registry, and a registry that does not know the
    reference. *)
Lemma badge_ref_registry_errors_witness :
  let g1 := bound_with (Some empty_registry) padded_code schema_ref in
  let g2 := bound_with (Some sample_registry) padded_code
              [("$ref", PStr "urn:y")] in
  (truthy (dict_get_none Key.REF (_schema g1)) = true /\
   _registry g1 = Some empty_registry /\
   registry_bool empty_registry = false /\
   truthy (dict_get_none Key.REF (_schema g2)) = true /\
   _registry g2 = Some sample_registry /\
   registry_bool sample_registry = true /\
   registry_contents sample_registry (dict_get_none Key.REF (_schema g2))
   = Raise KeyError) /\
  _badge_ref g1 = Raise (ValueError "Schema has ref but no registry given.") /\
  _badge_ref g2 = Raise KeyError.
Proof.
  intros g1 g2. split; [repeat split; reflexivity |].
  split.
  - exact (proj1 (badge_ref_registry_errors g1 (registry := empty_registry)
                    KeyError eq_refl eq_refl) eq_refl).
  - exact (proj2 (badge_ref_registry_errors g2 (registry := sample_registry)
                    KeyError eq_refl eq_refl) eq_refl eq_refl).
Defined.

(** The badges follow the keys, not the schema: [uniqueItems] comes
    first in the schema and second in the walk. *)
Example badge_loop_follows_keys :
  badge_loop
    (bound [("uniqueItems", PBool false); ("deprecated", PBool true)])
    [Key.DEPRECATED; Key.READ_ONLY; Key.UNIQUE_ITEMS; Key.ITEMS] []
  = Return [ [ ("label", PStr "deprecated");
               ("args", PDict [("message", PStr "true")]);
               ("alt", PStr "true");
               ("link", PNone);
               ("title", PStr "This value is deprecated.");
               ("color", PStr "#AF1F10") ];
             [ ("label", PStr "unique Items");
               ("args", PDict [("message", PStr "false")]);
               ("alt", PStr "false");
               ("link", PNone);
               ("title", PStr "Array elements do not need to be unique.");
               ("color", PStr "#00802B") ] ].
Proof. reflexivity. Qed.

(** The walk over the keys of [_generate_badges] has this shape for the
    sample [camel_to_snake]; here on a shorter list. *)
Lemma badge_walk_stops_at_default_witness :
  let g := bound schema_plain in
  let before := [Key.DEPRECATED; Key.TYPE] in
  let after := [Key.REQUIRED; Key.REF] in
  camel_to_snake Key.DEFAULT = "default" /\
  badge_loop g (before ++ Key.DEFAULT :: after) []
  = (badge_loop g before [] ;;; Raise TypeError) /\
  (exists before' after',
     badge_keys = (before' ++ Key.DEFAULT :: after')%list /\
     List.length before' = 23%nat).
Proof.
  intros g before after. split; [reflexivity |]. split.
  - exact (badge_walk_stops_at_default g before after [] eq_refl).
  - exists (firstn 23 badge_keys), (skipn 24 badge_keys).
    split; reflexivity.
Defined.

(** [const: false] with companion texts. *)
Lemma simple_tab_without_value_witness :
  let g := bound schema_const_texts in
  (truthy (dict_get_none Key.CONST (_schema g)) = false /\
   (truthy (dict_get_none (_get_title_key g Key.CONST) (_schema g))
    || truthy (dict_get_none (_get_description_key g Key.CONST) (_schema g)))%bool
   = true) /\
  tab_const g
  = Return (Some
      (ETabItem
         (EBlockContainer
            [ (Some "title", EValue (PStr "Always off."));
              (Some "description", EValue (PStr "Kept for compatibility.")) ]
            None [])
         "const" "ex---const"
         ["jsonschema-tab-item-container"]
         ["jsonschema-tab-item-content"]
         ["jsonschema-tab-item-label"])).
Proof.
  intros g. split; [split; reflexivity |].
  exact (simple_tab_without_value g Key.CONST None eq_refl eq_refl).
Defined.

(** [const: 7] with a code generator that pads its output. *)
Lemma simple_tab_with_value_witness :
  let g := bound_with None padded_code schema_const_value in
  (truthy (dict_get_none Key.CONST (_schema g)) = true /\
   _value_code_gen g (dict_get_none Key.CONST (_schema g)) = PStr "  7 ") /\
  tab_const g
  = Return (Some
      (ETabItem
         (EBlockContainer
            [ (Some "title", EValue (PStr "Lucky."));
              (Some "value", ECodeBlock "7" "yaml") ]
            None [])
         "const" "ex---const"
         ["jsonschema-tab-item-container"]
         ["jsonschema-tab-item-content"]
         ["jsonschema-tab-item-label"])).
Proof.
  intros g. split; [split; reflexivity |].
  exact (simple_tab_with_value g Key.CONST (code := "  7 ") None
           eq_refl eq_refl).
Defined.

(** The same schema on a generator built with the defaults. *)
Lemma default_value_code_gen_breaks_tab_witness :
  arg_value_code_gen (default_args (lib := sample_collaborators))
  = arg_value_code_gen default_args /\
  truthy (dict_get_none Key.CONST schema_const_value) = true /\
  tab_const (bound schema_const_value) = Raise (AttributeError "strip").
Proof.
  split; [reflexivity |]. split; [reflexivity |].
  exact (default_value_code_gen_breaks_tab default_args schema_const_value
           "$" "ex" "$" Key.CONST None eq_refl eq_refl).
Defined.

(** [enum: [1, 2, 3]] with one description, on a generator whose code
    generator returns strings. *)
Lemma array_tab_pairs_descriptions_witness :
  let g := bound_with None padded_code schema_enum in
  (dict_get Key.ENUM (_schema g) = Some (PList [PInt 1; PInt 2; PInt 3]) /\
   truthy (dict_get_none (_get_title_key g Key.ENUM) (_schema g)) = false /\
   dict_get_or (_get_description_key g Key.ENUM) (PList []) (_schema g)
   = PList [PStr "first"] /\
   Forall2 (fun value code => _value_code_gen g value = PStr code)
     [PInt 1; PInt 2; PInt 3] ["  1 "; "  2 "; "  3 "]) /\
  _tab_enum g
  = Return (Some
      (ETabItem
         (EBlockContainer
            [ (None,
               EOrderedList
                 [ EBlockContainer
                     [ (None, EValue (PStr "first"));
                       (None, ECodeBlock "1" "yaml") ]
                     None [];
                   ECodeBlock "2" "yaml";
                   ECodeBlock "3" "yaml" ]) ]
            None [])
         "enum" "ex---enum"
         ["jsonschema-tab-item-container"]
         ["jsonschema-tab-item-content"]
         ["jsonschema-tab-item-label"])).
Proof.
  intros g.
  assert (Hcodes : Forall2
                     (fun value code => _value_code_gen g value = PStr code)
                     [PInt 1; PInt 2; PInt 3] ["  1 "; "  2 "; "  3 "])
    by (repeat constructor).
  split; [repeat split; try reflexivity; exact Hcodes |].
  exact (proj1 (array_tab_pairs_descriptions g Key.ENUM None
                  (v := PInt 1) (vs := [PInt 2; PInt 3])
                  (ds := [PStr "first"]) eq_refl eq_refl eq_refl Hcodes)).
Defined.

(** The same schema on a generator built with the defaults. *)
Example array_tab_with_default_code_gen :
  _tab_enum (bound schema_enum) = Raise (AttributeError "strip").
Proof. reflexivity. Qed.

Lemma required_tab_built_witness :
  let g := bound schema_required in
  (dict_get Key.REQUIRED (_schema g) = Some (PList (map PStr ["b"; "a"])) /\
   dict_get Key.DEPENDENT_REQUIRED (_schema g) = None /\
   dict_get_or Key.PROPERTIES (PDict []) (_schema g)
   = PDict [("a", PDict [])]) /\
  _tab_required_built g
  = Return (Some
      (_make_tab_item g Key.REQUIRED
         (EUnorderedList [EText "[`a`](#ex---properties-a)"; EText "`b`"])
         (Some "Required Properties"))) /\
  sort_strs ["b"; "a"] = ["a"; "b"].
Proof.
  intros g. split; [repeat split; reflexivity |].
  split; [| reflexivity].
  exact (proj1 (required_tab_built g (n := "b") (names := ["a"])
                  (props := [("a", PDict [])]) eq_refl eq_refl eq_refl)).
Defined.

Lemma dependent_required_tab_built_witness :
  let g := bound schema_dependent_plain in
  (dict_get Key.REQUIRED (_schema g) = None /\
   dict_get Key.PROPERTIES (_schema g) = None /\
   dict_get Key.DEPENDENT_REQUIRED (_schema g)
   = Some (PDict (map group_item schema_groups))) /\
  _tab_required_built g
  = Return (Some
      (_make_tab_item g Key.REQUIRED
         (EUnorderedList
            [ EBlockContainer
                [ (None, EText "If `x` is present:");
                  (None, EUnorderedList [EText "`p`"]) ]
                None [];
              EBlockContainer
                [ (None, EText "If `y` is present:");
                  (None, EUnorderedList [EText "`q`"; EText "`p`"]) ]
                None [] ])
         (Some "Required Properties"))).
Proof.
  intros g. split; [repeat split; reflexivity |].
  exact (proj1 (dependent_required_tab_built g (group := ("y", ["q"; "p"]))
                  (groups := [("x", ["p"])]) eq_refl eq_refl eq_refl)).
Defined.

(** [badge_permissive={}] and [badge_restrictive=None]. *)
Lemma init_styles_nonempty_witness :
  let a := sample_args None padded_code in
  (arg_badge_permissive a = Some [] /\
   arg_badge_restrictive a = None) /\
  _badge_permissive (__init__ a) = [("color", PStr "#00802B")] /\
  _badge_restrictive (__init__ a) = [("color", PStr "#AF1F10")].
Proof.
  intros a. split; [split; reflexivity |].
  destruct (init_styles_nonempty a) as (_ & _ & Hp & Hr).
  split; [exact (Hp eq_refl) | exact (Hr eq_refl)].
Defined.

(** *** The definition lists on the sample inputs *)

Example generate_if_then_else_examples :
  generate_if_then_else (bound [("if", PDict []); ("then", PBool false)])
  = Return [ ("div_open",
              EText ("<div class=" ++ dquote ++ "jsonschema-deflist"
                     ++ dquote ++ ">"));
             ("div_close", EText "</div>") ] /\
  generate_if_then_else (bound [("if", PDict [("type", PStr "string")])])
  = Raise (AttributeError "_make_header_badges").
Proof. split; reflexivity. Qed.

(** [readOnly] has an entry of its own in [_badge_default] on the fresh
    generator, [uniqueItems] has none. *)
Lemma boolean_rules_descriptor_witness :
  let g := bound [("uniqueItems", PBool false); ("readOnly", PBool false)] in
  (In (Key.UNIQUE_ITEMS, _badge_unique_items,
       (fun b : bool => if b then "All array elements must be unique."
                        else "Array elements do not need to be unique."))
      boolean_rules /\
   dict_get Key.UNIQUE_ITEMS (_schema g) = Some (PBool false) /\
   per_key_entry g Key.UNIQUE_ITEMS [] /\
   In (Key.READ_ONLY, _badge_read_only,
       (fun b : bool => "This value is " ++ (if b then "" else "not ")
                        ++ "read-only."))
      boolean_rules /\
   dict_get Key.READ_ONLY (_schema g) = Some (PBool false) /\
   per_key_entry g Key.READ_ONLY [("color", PStr "#D93402")]) /\
  _badge_unique_items g
  = Return (Some [ ("label", PStr "unique Items");
                   ("args", PDict [("message", PStr "false")]);
                   ("alt", PStr "false");
                   ("link", PNone);
                   ("title", PStr "Array elements do not need to be unique.");
                   ("color", PStr "#00802B") ]) /\
  _badge_read_only g
  = Return (Some [ ("label", PStr "read Only");
                   ("args", PDict [("message", PStr "false")]);
                   ("alt", PStr "false");
                   ("link", PNone);
                   ("title", PStr "This value is not read-only.");
                   ("color", PStr "#D93402") ]).
Proof.
  intros g.
  assert (Hunique : In (Key.UNIQUE_ITEMS, _badge_unique_items,
                        (fun b : bool =>
                           if b then "All array elements must be unique."
                           else "Array elements do not need to be unique."))
                      boolean_rules)
    by (do 2 right; left; reflexivity).
  assert (Hread : In (Key.READ_ONLY, _badge_read_only,
                      (fun b : bool =>
                         "This value is " ++ (if b then "" else "not ")
                         ++ "read-only."))
                    boolean_rules)
    by (left; reflexivity).
  split; [repeat split; try reflexivity; assumption |].
  split.
  - exact (boolean_rules_descriptor (g := g) (b := false) (per_key := [])
             Hunique eq_refl eq_refl).
  - exact (boolean_rules_descriptor (g := g) (b := false)
             (per_key := [("color", PStr "#D93402")]) Hread eq_refl eq_refl).
Defined.

(** [const: 7]: the badge links to [#ex---const], the name of the tab. *)
Lemma badge_link_meets_tab_anchor_witness :
  let g := bound_with None padded_code schema_const_value in
  exists kw tab,
    (In (Key.CONST, _badge_const, tab_const) tabbed_rules /\
     _badge_const g = Return (Some kw) /\
     tab_const g = Return (Some tab) /\
     per_key_entry g Key.CONST [] /\
     dict_get "link" [] = None /\
     dict_get "link" (_badge_restrictive g) = None) /\
    tab_name tab = Some "ex---const" /\
    exists name,
      tab_name tab = Some name /\
      dict_get "link" kw = Some (PStr ("#" ++ name)).
Proof.
  intros g.
  assert (Hin : In (Key.CONST, _badge_const, tab_const) tabbed_rules)
    by (left; reflexivity).
  eexists. eexists.
  split; [split; [exact Hin | repeat split; reflexivity] |].
  split; [reflexivity |].
  exact (badge_link_meets_tab_anchor (g := g) (per_key := []) Hin
           eq_refl eq_refl eq_refl eq_refl eq_refl).
Defined.
